(** * Cat and user resource controllers

    A shallow embedding of [catController.ts], of the user controller and
    of the types they use ([DBTypes], [MessageTypes], [userModel.ts]).

    A controller is a function of the request, of the response's locals and
    of the document store; it yields what the handler did with the response
    ([res.json], [next(err)] or nothing at all) and the store it leaves.
    Exceptions thrown inside a [try] block are threaded by a small state and
    exception monad, so that each [catch] clause can be written as the
    source has it. *)

From Stdlib Require Import String Ascii List Bool ZArith QArith Qminmax Lqa.
Import ListNotations.
Open Scope string_scope.

(** ** JavaScript helpers *)

Module Js.

(** A JS number that may be [NaN]. *)
Definition number := option Q.

(** [s.split(',')] for a one-character separator: never empty. *)
Fixpoint split (sep : ascii) (s : string) : list string :=
  match s with
  | EmptyString => [EmptyString]
  | String c rest =>
      if Ascii.eqb c sep then EmptyString :: split sep rest
      else match split sep rest with
           | [] => [String c EmptyString]
           | w :: ws => String c w :: ws
           end
  end.

(** [array.join(sep)]; [undefined] elements are written as nothing. *)
Definition join (sep : string) (l : list (option string)) : string :=
  String.concat sep (map (fun o => match o with Some s => s | None => "" end) l).

Definition digit_of (c : ascii) : option Z :=
  let n := Z.of_nat (nat_of_ascii c) in
  if ((48 <=? n) && (n <=? 57))%Z then Some (n - 48)%Z else None.

(** The white space of the ASCII range: blank, tab, line feed, vertical
    tab, form feed and carriage return. *)
Definition is_space (c : ascii) : bool :=
  let n := nat_of_ascii c in
  (Nat.eqb n 32 || Nat.eqb n 9 || Nat.eqb n 10 || Nat.eqb n 11
   || Nat.eqb n 12 || Nat.eqb n 13)%bool.

Fixpoint skip_spaces (s : string) : string :=
  match s with
  | String c rest => if is_space c then skip_spaces rest else s
  | EmptyString => s
  end.

(** Reads the longest prefix of decimal digits: the value read so far,
    how many digits were read, and what is left. *)
Fixpoint read_digits (acc : Z) (count : nat) (s : string) : Z * nat * string :=
  match s with
  | String c rest =>
      match digit_of c with
      | Some d => read_digits (acc * 10 + d)%Z (S count) rest
      | None => (acc, count, s)
      end
  | EmptyString => (acc, count, s)
  end.

Definition read_sign (s : string) : bool * string :=
  match s with
  | String "-" rest => (true, rest)
  | String "+" rest => (false, rest)
  | _ => (false, s)
  end.

(** The exponent part of a literal: [e] or [E], a sign and at least one
    digit; [None] when the string does not start with one. *)
Definition read_exponent (s : string) : option Z :=
  match s with
  | String c rest =>
      if (Ascii.eqb c "e" || Ascii.eqb c "E")%bool then
        let '(neg, s1) := read_sign rest in
        let '(value, count, _) := read_digits 0 0 s1 in
        match count with
        | O => None
        | _ => Some (if neg then - value else value)%Z
        end
      else None
  | EmptyString => None
  end.

(** [10 ** e] as a rational. *)
Definition power_of_ten (e : Z) : Q :=
  if (0 <=? e)%Z then inject_Z (10 ^ e)
  else (1 # Z.to_pos (10 ^ (- e)))%Q.

(** [parseFloat] on decimal literals: leading white space, a sign, digits,
    a fraction and an exponent; whatever follows is ignored, and a string
    with no digit in its mantissa is [NaN].  The result is the exact value
    of the literal: the rounding to a double (and with it overflow to
    [Infinity]), the literal [Infinity] and white space outside the ASCII
    range are not modelled. *)
Definition parseFloat_string (s : string) : number :=
  let '(neg, s1) := read_sign (skip_spaces s) in
  let '(ip, ni, s2) := read_digits 0 0 s1 in
  let '(fp, nf, s3) :=
    match s2 with
    | String "." rest => read_digits 0 0 rest
    | _ => (0%Z, 0%nat, s2)
    end in
  match ni, nf with
  | O, O => None
  | _, _ =>
      let mantissa :=
        (inject_Z ip + (fp # Z.to_pos (10 ^ Z.of_nat nf)))%Q in
      let magnitude :=
        match read_exponent s3 with
        | Some e => (mantissa * power_of_ten e)%Q
        | None => mantissa
        end in
      Some (Qred (if neg then - magnitude else magnitude)%Q)
  end.

(** [parseFloat(x)] where [x] may be [undefined]. *)
Definition parseFloat (x : option string) : number :=
  match x with
  | Some s => parseFloat_string s
  | None => None
  end.

End Js.

(** ** Types: [DBTypes], [MessageTypes], [CustomError] and the request *)

(** [Types.ObjectId | string]. *)
Definition Id := string.

(** A JSON value, as [res.json] sends it. *)
#[warnings="-register-all"]
Inductive json : Type :=
| JNull
| JStr (s : string)
| JNum (q : Q)
| JArr (items : list json)
| JObj (fields : list (string * json)).

(** [obj[key]]; [None] is [undefined]. *)
Fixpoint lookup (key : string) (fields : list (string * json)) : option json :=
  match fields with
  | [] => None
  | (k, v) :: rest => if String.eqb k key then Some v else lookup key rest
  end.

Definition field (key : string) (j : json) : option json :=
  match j with
  | JObj fields => lookup key fields
  | _ => None
  end.

(** [type MessageResponse = {message: string; data: {}}]. *)
Definition MessageResponse (message : string) (data : json) : json :=
  JObj [("message", JStr message); ("data", data)].

(** A thrown value: a [CustomError] (an [Error] with a status) or any other
    [Error]; the handlers read only its [message]. *)
Inductive Error : Type :=
| CustomError (message : string) (status : Z)
| OtherError (message : string).

Definition message (e : Error) : string :=
  match e with
  | CustomError m _ => m
  | OtherError m => m
  end.

(** [User], as the [userSchema] of [userModel.ts] stores it. *)
Record User : Type := {
  _id : Id;
  user_name : string;
  email : string;
  role : string;
  password : string
}.

(** [LoginUser = Omit<User, 'password'>]: the principal in [res.locals.user]. *)
Record LoginUser : Type := {
  login_id : Id;
  login_user_name : string;
  login_email : string;
  login_role : string
}.

(** The location of a cat: [{type, coordinates}], a position being
    [(longitude, latitude)]. *)
Record Point : Type := {
  point_type : string;
  coordinates : Q * Q
}.

Record Cat : Type := {
  cat_id : Id;
  cat_name : string;
  weight : Q;
  owner : Id;
  filename : string;
  birthdate : string;
  location : Point
}.

(** One entry of the validation result. *)
Record ValidationError : Type := {
  msg : string;
  param : string
}.

(** A request body typed [User]: what the client sent of it.  The last
    field is what [validationResult] finds when it is handed the body
    itself.  A client-chosen [_id] is not modelled. *)
Record UserBody : Type := {
  body_user_name : option string;
  body_email : option string;
  body_password : option string;
  body_role : option string;
  body_contexts : list ValidationError
}.

(** A request body typed [Cat]: what the client sent of it, as plain
    fields.  Update operators ([$set], [$inc] and the like), which a
    client could send in their place, are not represented; the same holds
    of [UserBody]. *)
Record CatBody : Type := {
  body_cat_name : option string;
  body_weight : option Q;
  body_owner : option Id;
  body_filename : option string;
  body_birthdate : option string;
  body_location : option Point
}.

(** [req.file], as the upload middleware leaves it. *)
Record File : Type := {
  file_filename : string
}.

(** [Request<P, ResBody, ReqBody, ReqQuery>]. *)
Record Request (P B R : Type) : Type := {
  req_contexts : list ValidationError;
  params : P;
  body : B;
  query : R;
  file : option File
}.
Arguments req_contexts {P B R} _.
Arguments params {P B R} _.
Arguments body {P B R} _.
Arguments query {P B R} _.
Arguments file {P B R} _.

Record IdParams : Type := { id : Id }.

Record BoxQuery : Type := { topRight : string; bottomLeft : string }.

(** [res.locals]. *)
Record Locals : Type := {
  user : option LoginUser;
  coords : option Point
}.

(** What a handler did with the response. *)
Inductive Outcome : Type :=
| Json (sent : json)
| Next (err : Error)
| NoResponse.

(** The two collections. *)
Record Store : Type := {
  users : list User;
  cats : list Cat
}.

(** What the libraries draw at random during one request: the salt of
    [bcrypt.genSalt] and the [ObjectId] given to a created document. *)
Record Random : Type := {
  salt : string;
  objectId : Id
}.

(** ** The state and exception monad of a handler body *)

Definition M (A : Type) : Type := Store -> (Error + A) * Store.

Definition ret {A} (a : A) : M A := fun s => (inr a, s).

Definition throw {A} (e : Error) : M A := fun s => (inl e, s).

Definition bind {A B} (m : M A) (k : A -> M B) : M B :=
  fun s =>
    match m s with
    | (inl e, s') => (inl e, s')
    | (inr a, s') => k a s'
    end.

Notation "x <- m ;; k" := (bind m (fun x => k))
  (at level 61, m at next level, right associativity).
Notation "m ;;; k" := (bind m (fun _ => k))
  (at level 61, right associativity).

(** [try { body } catch (error) { handler }]. *)
Definition try_catch (body : M Outcome) (handler : Error -> Outcome)
  : Store -> Outcome * Store :=
  fun s =>
    match body s with
    | (inl e, s') => (handler e, s')
    | (inr o, s') => (o, s')
    end.

(** Reading a property of something that may be [undefined]. *)
Definition property {A} (x : option A) (name : string) : M A :=
  match x with
  | Some a => ret a
  | None =>
      throw (OtherError
        ("Cannot read properties of undefined (reading '" ++ name ++ "')"))
  end.

(** ** [express-validator] *)

Class Validated (A : Type) : Type := contexts : A -> list ValidationError.

#[export] Instance Request_Validated {P B R} : Validated (Request P B R) :=
  req_contexts.
#[export] Instance UserBody_Validated : Validated UserBody := body_contexts.

Definition validationResult {A} `{Validated A} (x : A) : list ValidationError :=
  contexts x.

Definition isEmpty {A} (l : list A) : bool :=
  match l with [] => true | _ => false end.

(** ** Documents as JSON, [select] and [populate] *)

(** A user document as [res.json] writes it.  The version key [__v] that
    Mongoose keeps on a document is not shown. *)
Definition user_json (u : User) : json :=
  JObj [("_id", JStr (_id u)); ("user_name", JStr (user_name u));
        ("email", JStr (email u)); ("password", JStr (password u));
        ("role", JStr (role u))].

Definition point_json (p : Point) : json :=
  JObj [("type", JStr (point_type p));
        ("coordinates", JArr [JNum (fst (coordinates p)); JNum (snd (coordinates p))])].

(** A cat document whose [owner] path holds [owner_value]: the bare
    reference, or what [populate] put in its place.  The version key
    [__v] is not shown here either. *)
Definition cat_json_with (owner_value : json) (c : Cat) : json :=
  JObj [("_id", JStr (cat_id c)); ("cat_name", JStr (cat_name c));
        ("weight", JNum (weight c)); ("owner", owner_value);
        ("filename", JStr (filename c)); ("birthdate", JStr (birthdate c));
        ("location", point_json (location c))].

Definition cat_json (c : Cat) : json := cat_json_with (JStr (owner c)) c.

Definition excluded (s : string) : option string :=
  match s with
  | String "-" name => Some name
  | _ => None
  end.

Definition mentions (names : list string) (key : string) : bool :=
  existsb (String.eqb key) names.

(** [query.select(spec)]: a blank-separated list of paths.  When every path
    carries a minus the listed paths are left out; otherwise only the listed
    paths and [_id] are kept. *)
Definition select (spec : string) (j : json) : json :=
  match j with
  | JObj fields =>
      let paths := Js.split " " spec in
      if forallb (fun p => match excluded p with Some _ => true | None => false end) paths
      then
        let names := map (fun p => match excluded p with Some n => n | None => p end) paths in
        JObj (filter (fun kv => negb (mentions names (fst kv))) fields)
      else
        JObj (filter (fun kv => mentions ("_id" :: paths) (fst kv)) fields)
  | _ => j
  end.

Definition find_user (i : Id) (l : list User) : option User :=
  List.find (fun u => String.eqb (_id u) i) l.

Definition find_cat (i : Id) (l : list Cat) : option Cat :=
  List.find (fun c => String.eqb (cat_id c) i) l.

(** [doc.populate('owner', spec)]: the owner's document in place of the
    reference, [null] when no such user is stored. *)
Definition populate_owner (spec : option string) (c : Cat) : M json :=
  fun s =>
    let owner_value :=
      match find_user (owner c) (users s) with
      | Some u =>
          match spec with
          | Some fields => select fields (user_json u)
          | None => user_json u
          end
      | None => JNull
      end in
    (inr (cat_json_with owner_value c), s).

Fixpoint populate_owners (l : list Cat) : M (list json) :=
  match l with
  | [] => ret []
  | c :: rest =>
      j <- populate_owner None c ;;
      js <- populate_owners rest ;;
      ret (j :: js)
  end.

(** ** The Mongoose models *)

(** A lookup by identifier stands for a lookup by a well-formed [ObjectId]:
    the [CastError] Mongoose raises when it is handed another string, and
    failures of the database itself, are not modelled. *)

(** The [required] validator of a [String] path: an absent value and the
    empty string both fail it. *)
Definition required (x : option string) : option string :=
  match x with
  | Some EmptyString => None
  | _ => x
  end.

Definition or_else {A} (x : option A) (old : A) : A :=
  match x with
  | Some a => a
  | None => old
  end.

Module userModel.

(** [userModel.find()]. *)
Definition find : M (list User) := fun s => (inr (users s), s).

(** [userModel.findById(id)]; [None] is [null]. *)
Definition findById (i : Id) : M (option User) :=
  fun s => (inr (find_user i (users s)), s).

(** [userModel.create(doc)]: the four paths of [userSchema] are required. *)
Definition create (oid : Id) (doc : UserBody) : M User :=
  match required (body_user_name doc), required (body_email doc),
        required (body_password doc), required (body_role doc) with
  | Some n, Some e, Some p, Some r =>
      fun s =>
        match find_user oid (users s) with
        | Some _ => (inl (OtherError "E11000 duplicate key error"), s)
        | None =>
            let u := {| _id := oid; user_name := n; email := e;
                        role := r; password := p |} in
            (inr u, {| users := users s ++ [u]; cats := cats s |})
        end
  | _, _, _, _ => throw (OtherError "User validation failed")
  end.

Definition apply_update (b : UserBody) (u : User) : User :=
  {| _id := _id u;
     user_name := or_else (body_user_name b) (user_name u);
     email := or_else (body_email b) (email u);
     role := or_else (body_role b) (role u);
     password := or_else (body_password b) (password u) |}.

Fixpoint update_first (i : Id) (b : UserBody) (l : list User) : list User :=
  match l with
  | [] => []
  | u :: rest =>
      if String.eqb (_id u) i then apply_update b u :: rest
      else u :: update_first i b rest
  end.

(** [userModel.findByIdAndUpdate(id, update, {new: true})]. *)
Definition findByIdAndUpdate (i : Id) (b : UserBody) : M (option User) :=
  fun s =>
    (inr (option_map (apply_update b) (find_user i (users s))),
     {| users := update_first i b (users s); cats := cats s |}).

Fixpoint remove_first (i : Id) (l : list User) : list User :=
  match l with
  | [] => []
  | u :: rest => if String.eqb (_id u) i then rest else u :: remove_first i rest
  end.

(** [userModel.findByIdAndDelete(id)]. *)
Definition findByIdAndDelete (i : Id) : M (option User) :=
  fun s =>
    (inr (find_user i (users s)),
     {| users := remove_first i (users s); cats := cats s |}).

End userModel.

(** ** Geometry of the bounding-box query *)

Record LatLng : Type := {
  lat : Js.number;
  lng : Js.number
}.

Record Polygon : Type := {
  polygon_type : string;
  polygon_coordinates : list (list (Js.number * Js.number))
}.

(** Modelled from the spec: [utils/rectangleBounds] is not among the
    sources.  It "constructs an axis-aligned rectangle geometry from the two
    corners": the closed ring through the four corners the two given ones
    define, each position written [(longitude, latitude)]. *)
Definition rectangleBounds (topRight bottomLeft : LatLng) : Polygon :=
  {| polygon_type := "Polygon";
     polygon_coordinates :=
       [[ (lng bottomLeft, lat bottomLeft);
          (lng bottomLeft, lat topRight);
          (lng topRight, lat topRight);
          (lng topRight, lat bottomLeft);
          (lng bottomLeft, lat bottomLeft) ]] |}.

(** The ring through two numeric corners, as [rectangleBounds] lists it. *)
Definition rectangle_ring (t_lat t_lng b_lat b_lng : Q) : list (Q * Q) :=
  [(b_lng, b_lat); (b_lng, t_lat); (t_lng, t_lat); (t_lng, b_lat); (b_lng, b_lat)].

(** The positions of a ring, when none of its numbers is [NaN]. *)
Fixpoint positions (ring : list (Js.number * Js.number)) : option (list (Q * Q)) :=
  match ring with
  | [] => Some []
  | (Some x, Some y) :: rest => option_map (cons (x, y)) (positions rest)
  | _ :: _ => None
  end.

(** The least and the greatest of a list of numbers. *)
Fixpoint extent (l : list Q) : option (Q * Q) :=
  match l with
  | [] => None
  | x :: rest =>
      match extent rest with
      | None => Some (x, x)
      | Some (lo, hi) => Some (Qmin x lo, Qmax x hi)
      end
  end.

(** Modelled from the spec: the store's [$geoWithin] operator is not among
    the sources.  The query "returns all records whose location falls within"
    the rectangle: for the ring of an axis-aligned rectangle, the positions
    between its extreme longitudes and between its extreme latitudes. *)
Definition geoWithin (ring : list (Q * Q)) (p : Q * Q) : bool :=
  match extent (map fst ring), extent (map snd ring) with
  | Some (x0, x1), Some (y0, y1) =>
      Qle_bool x0 (fst p) && Qle_bool (fst p) x1
      && Qle_bool y0 (snd p) && Qle_bool (snd p) y1
  | _, _ => false
  end.

Module catModel.

(** [catModel.find()]. *)
Definition find : M (list Cat) := fun s => (inr (cats s), s).

(** [catModel.find({owner: id})]. *)
Definition find_owner (i : Id) : M (list Cat) :=
  fun s => (inr (filter (fun c => String.eqb (owner c) i) (cats s)), s).

(** [catModel.find({location: {$geoWithin: {$geometry: bounds}}})]; a
    geometry with a [NaN] in it is refused by the store. *)
Definition find_geoWithin (bounds : Polygon) : M (list Cat) :=
  match polygon_coordinates bounds with
  | [ring] =>
      match positions ring with
      | Some r =>
          fun s => (inr (filter (fun c => geoWithin r (coordinates (location c))) (cats s)), s)
      | None => throw (OtherError "invalid geometry")
      end
  | _ => throw (OtherError "invalid geometry")
  end.

(** [catModel.findById(id)]; [None] is [null]. *)
Definition findById (i : Id) : M (option Cat) :=
  fun s => (inr (find_cat i (cats s)), s).

(** Modelled from the spec: [models/catModel] is not among the sources.  A
    cat is a "record with identifier, name, weight, birthdate, an
    uploaded-image filename, a geographic point, and an owner reference":
    [create] stores a document that has them all and refuses any other. *)
Definition create (oid : Id) (doc : CatBody) : M Cat :=
  match required (body_cat_name doc), body_weight doc, body_owner doc,
        required (body_filename doc), body_birthdate doc, body_location doc with
  | Some n, Some w, Some o, Some f, Some b, Some l =>
      fun s =>
        match find_cat oid (cats s) with
        | Some _ => (inl (OtherError "E11000 duplicate key error"), s)
        | None =>
            let c := {| cat_id := oid; cat_name := n; weight := w; owner := o;
                        filename := f; birthdate := b; location := l |} in
            (inr c, {| users := users s; cats := cats s ++ [c] |})
        end
  | _, _, _, _, _, _ => throw (OtherError "Cat validation failed")
  end.

Definition apply_update (b : CatBody) (c : Cat) : Cat :=
  {| cat_id := cat_id c;
     cat_name := or_else (body_cat_name b) (cat_name c);
     weight := or_else (body_weight b) (weight c);
     owner := or_else (body_owner b) (owner c);
     filename := or_else (body_filename b) (filename c);
     birthdate := or_else (body_birthdate b) (birthdate c);
     location := or_else (body_location b) (location c) |}.

Fixpoint update_first (i : Id) (b : CatBody) (l : list Cat) : list Cat :=
  match l with
  | [] => []
  | c :: rest =>
      if String.eqb (cat_id c) i then apply_update b c :: rest
      else c :: update_first i b rest
  end.

(** [catModel.findByIdAndUpdate(id, update, {new: true})]. *)
Definition findByIdAndUpdate (i : Id) (b : CatBody) : M (option Cat) :=
  fun s =>
    (inr (option_map (apply_update b) (find_cat i (cats s))),
     {| users := users s; cats := update_first i b (cats s) |}).

Fixpoint remove_first (i : Id) (l : list Cat) : list Cat :=
  match l with
  | [] => []
  | c :: rest => if String.eqb (cat_id c) i then rest else c :: remove_first i rest
  end.

(** [catModel.findByIdAndDelete(id)]. *)
Definition findByIdAndDelete (i : Id) : M (option Cat) :=
  fun s =>
    (inr (find_cat i (cats s)),
     {| users := users s; cats := remove_first i (cats s) |}).

End catModel.

(** ** [catController.ts] *)

(** [errors.array().map((error) => `${error.msg}: ${error.param}`).join(', ')]. *)
Definition messages (errors : list ValidationError) : string :=
  Js.join ", " (map (fun error => Some (msg error ++ ": " ++ param error)) errors).

Definition Handler : Type := Store -> Outcome * Store.

Module catController.

(** [catGetByUser]: an array is never falsy, so the 404 branch is dead. *)
Definition catGetByUser (req : Request unit CatBody unit) (res : Locals) : Handler :=
  try_catch
    (let errors := validationResult req in
     (if negb (isEmpty errors)
      then throw (CustomError (messages errors) 400) else ret tt) ;;;
     u <- property (user res) "_id" ;;
     cat <- catModel.find_owner (login_id u) ;;
     populated <- populate_owners cat ;;
     ret (Json (JArr populated)))
    (fun error => Next (CustomError (message error) 500)).

Definition catGetByBoundingBox (req : Request unit unit BoxQuery) (res : Locals)
  : Handler :=
  try_catch
    (let errors := validationResult req in
     (if negb (isEmpty errors)
      then throw (CustomError (messages errors) 400) else ret tt) ;;;
     let topRight := topRight (query req) in
     let bottomLeft := bottomLeft (query req) in
     let tr := Js.split "," topRight in
     let trLat := nth_error tr 0 in
     let trLng := nth_error tr 1 in
     let bl := Js.split "," bottomLeft in
     let blLat := nth_error bl 0 in
     let blLng := nth_error bl 1 in
     let bounds :=
       rectangleBounds
         {| lng := Js.parseFloat trLat; lat := Js.parseFloat trLng |}
         {| lat := Js.parseFloat blLat; lng := Js.parseFloat blLng |} in
     cats <- catModel.find_geoWithin bounds ;;
     ret (Json (JArr (map cat_json cats))))
    (fun error => Next (CustomError (message error) 500)).

Definition catPutAdmin (req : Request IdParams CatBody unit) (res : Locals)
  : Handler :=
  try_catch
    (let errors := validationResult req in
     (if negb (isEmpty errors)
      then throw (CustomError (messages errors) 400) else ret tt) ;;;
     u <- property (user res) "role" ;;
     if String.eqb (login_role u) "admin" then
       cat <- catModel.findByIdAndUpdate (id (params req)) (body req) ;;
       match cat with
       | None => ret (Next (CustomError "No cat found" 404))
       | Some c =>
           populated <- populate_owner (Some "user_name email") c ;;
           ret (Json (MessageResponse "Cat updated" populated))
       end
     else ret NoResponse)
    (fun error => Next (CustomError (message error) 500)).

Definition catDeleteAdmin (req : Request IdParams CatBody unit) (res : Locals)
  : Handler :=
  try_catch
    (let errors := validationResult req in
     (if negb (isEmpty errors)
      then throw (CustomError (messages errors) 400) else ret tt) ;;;
     u <- property (user res) "role" ;;
     if String.eqb (login_role u) "admin" then
       cat <- catModel.findByIdAndDelete (id (params req)) ;;
       match cat with
       | None => ret (Next (CustomError "No cat found" 404))
       | Some c =>
           populated <- populate_owner None c ;;
           ret (Json (MessageResponse "Cat deleted" populated))
       end
     else ret NoResponse)
    (fun error => Next (CustomError (message error) 500)).

Definition catDelete (req : Request IdParams unit unit) (res : Locals) : Handler :=
  try_catch
    (let errors := validationResult req in
     (if negb (isEmpty errors)
      then throw (CustomError (messages errors) 400) else ret tt) ;;;
     cat <- catModel.findByIdAndDelete (id (params req)) ;;
     match cat with
     | None => ret (Next (CustomError "No cat found" 404))
     | Some c =>
         populated <- populate_owner None c ;;
         ret (Json (MessageResponse "Cat deleted" populated))
     end)
    (fun error => Next (CustomError (message error) 500)).

Definition catPut (req : Request IdParams CatBody unit) (res : Locals) : Handler :=
  try_catch
    (let errors := validationResult req in
     (if negb (isEmpty errors)
      then throw (CustomError (messages errors) 400) else ret tt) ;;;
     cat <- catModel.findByIdAndUpdate (id (params req)) (body req) ;;
     match cat with
     | None => ret (Next (CustomError "No species found" 404))
     | Some c =>
         populated <- populate_owner (Some "user_name email") c ;;
         ret (Json (MessageResponse "Cat updated" populated))
     end)
    (fun error => Next (CustomError (message error) 500)).

Definition catGet (req : Request IdParams unit unit) (res : Locals) : Handler :=
  try_catch
    (let errors := validationResult req in
     (if negb (isEmpty errors)
      then throw (CustomError (messages errors) 400) else ret tt) ;;;
     cat <- catModel.findById (id (params req)) ;;
     match cat with
     | None => ret (Next (CustomError "No cat found" 404))
     | Some c =>
         populated <- populate_owner None c ;;
         ret (Json populated)
     end)
    (fun error => Next (CustomError (message error) 500)).

(** [catListGet]: no validation result is read. *)
Definition catListGet (req : Request unit unit unit) (res : Locals) : Handler :=
  try_catch
    (cat <- catModel.find ;;
     populated <- populate_owners cat ;;
     ret (Json (JArr populated)))
    (fun error => Next (CustomError (message error) 500)).

Definition catPost (rnd : Random) (req : Request unit CatBody unit) (res : Locals)
  : Handler :=
  try_catch
    (let errors := validationResult req in
     (if negb (isEmpty errors)
      then throw (CustomError (messages errors) 400) else ret tt) ;;;
     f <- match file req with
          | None => throw (CustomError "file not found" 400)
          | Some f => ret f
          end ;;
     let body1 :=
       {| body_cat_name := body_cat_name (body req);
          body_weight := body_weight (body req);
          body_owner := body_owner (body req);
          body_filename := body_filename (body req);
          body_birthdate := body_birthdate (body req);
          body_location := coords res |} in
     u <- property (user res) "_id" ;;
     let body2 :=
       {| body_cat_name := body_cat_name body1;
          body_weight := body_weight body1;
          body_owner := Some (login_id u);
          body_filename := body_filename body1;
          body_birthdate := body_birthdate body1;
          body_location := body_location body1 |} in
     let body3 :=
       {| body_cat_name := body_cat_name body2;
          body_weight := body_weight body2;
          body_owner := body_owner body2;
          body_filename := Some (file_filename f);
          body_birthdate := body_birthdate body2;
          body_location := body_location body2 |} in
     cat <- catModel.create (objectId rnd) body3 ;;
     populated <- populate_owner None cat ;;
     ret (Json (MessageResponse "Cat created" populated)))
    (fun error => Next (CustomError (message error) 500)).

End catController.

(** ** The user controller *)

Module userController.

(** [res.json] of [{_id, user_name, email}] read off the principal. *)
Definition identity_json (u : LoginUser) : json :=
  JObj [("_id", JStr (login_id u)); ("user_name", JStr (login_user_name u));
        ("email", JStr (login_email u))].

(** [checkToken]: not [async], and it names no model: the store is handed
    back as it came. *)
Definition checkToken (req : Request unit unit unit) (res : Locals) : Handler :=
  fun s =>
    (match user res with
     | None => Next (CustomError "token not valid" 403)
     | Some user => Json (identity_json user)
     end, s).

(** [userGet]: the 400 error is constructed and dropped, never thrown. *)
Definition userGet (req : Request IdParams unit unit) (res : Locals) : Handler :=
  try_catch
    (let errors := validationResult req in
     let _ := if negb (isEmpty errors)
              then Some (CustomError (messages errors) 400) else None in
     user <- userModel.findById (id (params req)) ;;
     match option_map (fun u => select "-role" (user_json u)) user with
     | None => ret (Next (CustomError "No user found" 404))
     | Some user => ret (Json user)
     end)
    (fun error => Next (CustomError (message error) 500)).

(** [userListGet]: an array is never falsy, so the 404 branch is dead. *)
Definition userListGet (req : Request unit unit unit) (res : Locals) : Handler :=
  try_catch
    (users <- userModel.find ;;
     ret (Json (JArr (map (fun u => select "-role" (user_json u)) users))))
    (fun error => Next (CustomError (message error) 500)).

Section Bcrypt.

(** [bcrypt.hash(password, salt)], from the [bcryptjs] package. *)
Variable bcrypt_hash : string -> string -> string.

Definition hash (password : option string) (salt : string) : M string :=
  match password with
  | Some p => ret (bcrypt_hash p salt)
  | None => throw (OtherError "Illegal arguments: undefined, string")
  end.

(** [userPost]: here too the 400 error is constructed and dropped. *)
Definition userPost (rnd : Random) (req : Request unit UserBody unit) (res : Locals)
  : Handler :=
  try_catch
    (let errors := validationResult req in
     let _ := if negb (isEmpty errors)
              then Some (CustomError (messages errors) 400) else None in
     let user := body req in
     let salt := salt rnd in
     hashPassword <- hash (body_password user) salt ;;
     result <- userModel.create (objectId rnd)
                 {| body_user_name := body_user_name user;
                    body_email := body_email user;
                    body_password := Some hashPassword;
                    body_role := Some "user";
                    body_contexts := body_contexts user |} ;;
     ret (Json (MessageResponse "Category created"
                  (JObj [("user_name", JStr (user_name result));
                         ("email", JStr (email result))]))))
    (fun error => Next (CustomError (message error) 500)).

End Bcrypt.

Definition userPutCurrent (req : Request unit UserBody unit) (res : Locals)
  : Handler :=
  let errors := validationResult req in
  try_catch
    ((if negb (isEmpty errors)
      then throw (CustomError (messages errors) 400) else ret tt) ;;;
     let update := body req in
     u <- property (user res) "_id" ;;
     result <- userModel.findByIdAndUpdate (login_id u) update ;;
     match option_map (fun r => select "-password -role" (user_json r)) result with
     | None => throw (CustomError "No user found" 404)
     | Some result => ret (Json (MessageResponse "User updated" result))
     end)
    (fun error => Next (CustomError (message error) 500)).

(** [userDeleteCurrent]: the validation result is asked of [req.body]; the
    arrow function of [map] has a block body without [return], so every
    message is [undefined]; the [catch] clause forwards the error as it is. *)
Definition userDeleteCurrent (req : Request unit UserBody unit) (res : Locals)
  : Handler :=
  let errors := validationResult (body req) in
  try_catch
    ((if negb (isEmpty errors)
      then throw (CustomError (Js.join ", " (map (fun error => None) errors)) 400)
      else ret tt) ;;;
     match user res with
     | None => ret (Next (CustomError "No user found" 404))
     | Some u =>
         _ <- userModel.findByIdAndDelete (login_id u) ;;
         ret (Json (MessageResponse "User deleted" (identity_json u)))
     end)
    (fun error => Next error).

End userController.

(** ** What the spec says of the bounding box, in its own words *)

(** The spec's reading of a corner: a ["lat,lng"] string, the same way for
    both corners. *)
Definition spec_corner (s : string) : LatLng :=
  let parts := Js.split "," s in
  {| lat := Js.parseFloat (nth_error parts 0);
     lng := Js.parseFloat (nth_error parts 1) |}.

(** A position [(longitude, latitude)] strictly inside the rectangle two
    corners define. *)
Definition strictly_inside (a b : LatLng) (p : Q * Q) : Prop :=
  exists a_lat a_lng b_lat b_lng,
    lat a = Some a_lat /\ lng a = Some a_lng /\
    lat b = Some b_lat /\ lng b = Some b_lng /\
    Qmin a_lng b_lng < fst p /\ fst p < Qmax a_lng b_lng /\
    Qmin a_lat b_lat < snd p /\ snd p < Qmax a_lat b_lat.

(** A position strictly outside that rectangle. *)
Definition strictly_outside (a b : LatLng) (p : Q * Q) : Prop :=
  exists a_lat a_lng b_lat b_lng,
    lat a = Some a_lat /\ lng a = Some a_lng /\
    lat b = Some b_lat /\ lng b = Some b_lng /\
    (fst p < Qmin a_lng b_lng \/ Qmax a_lng b_lng < fst p \/
     snd p < Qmin a_lat b_lat \/ Qmax a_lat b_lat < snd p).

(** ** Sample data *)

Module Sample.

Definition alice : User :=
  {| _id := "u1"; user_name := "alice"; email := "a@x.com"; role := "user";
     password := "$2a$10$CwTycUXWue0Thq9StjUM0uJ8" |}.

Definition bob : User :=
  {| _id := "u2"; user_name := "bob"; email := "b@x.com"; role := "user";
     password := "$2a$10$N9qo8uLOickgx2ZMRZoMye" |}.

(** Bob as the authentication middleware attaches him. *)
Definition bob_login : LoginUser :=
  {| login_id := "u2"; login_user_name := "bob"; login_email := "b@x.com";
     login_role := "user" |}.

(** Alice's cat, at latitude 5 and longitude 15. *)
Definition tom : Cat :=
  {| cat_id := "c1"; cat_name := "Tom"; weight := 4; owner := "u1";
     filename := "tom.png"; birthdate := "2020-01-01";
     location := {| point_type := "Point"; coordinates := (15, 5) |} |}.

(** Bob's cat, at latitude 15 and longitude 5. *)
Definition felix : Cat :=
  {| cat_id := "c2"; cat_name := "Felix"; weight := 3; owner := "u2";
     filename := "felix.png"; birthdate := "2021-06-01";
     location := {| point_type := "Point"; coordinates := (5, 15) |} |}.

Definition store : Store := {| users := [alice; bob]; cats := [tom; felix] |}.

Definition as_bob : Locals := {| user := Some bob_login; coords := None |}.

Definition anonymous : Locals := {| user := None; coords := None |}.

Definition no_change : CatBody :=
  {| body_cat_name := None; body_weight := None; body_owner := None;
     body_filename := None; body_birthdate := None; body_location := None |}.

Definition rename : CatBody :=
  {| body_cat_name := Some "Mine"; body_weight := None; body_owner := Some "u2";
     body_filename := None; body_birthdate := None; body_location := None |}.

Definition request {P B R} (errors : list ValidationError) (p : P) (b : B) (r : R)
  : Request P B R :=
  {| req_contexts := errors; params := p; body := b; query := r; file := None |}.

Definition bad_email : list ValidationError :=
  [{| msg := "Invalid value"; param := "email" |};
   {| msg := "Invalid value"; param := "password" |}].

Definition carol : UserBody :=
  {| body_user_name := Some "carol"; body_email := Some "not-an-email";
     body_password := Some "pw"; body_role := Some "admin";
     body_contexts := [] |}.

Definition empty_body : UserBody :=
  {| body_user_name := None; body_email := None; body_password := None;
     body_role := None; body_contexts := [] |}.

Definition flagged_body : UserBody :=
  {| body_user_name := None; body_email := None; body_password := None;
     body_role := None; body_contexts := bad_email |}.

(** A stand-in for [bcrypt.hash], to run [userPost] with. *)
Definition toy_hash (password salt : string) : string := salt ++ "." ++ password.

Definition draw : Random := {| salt := "$2a$10$abcdefghijklmnopqrstuv"; objectId := "u3" |}.

(** Carol as [userPost] stores her, and the answer it gives. *)
Definition carol_stored : User :=
  {| _id := "u3"; user_name := "carol"; email := "not-an-email"; role := "user";
     password := toy_hash "pw" (salt draw) |}.

Definition store_with_carol : Store :=
  {| users := [alice; bob; carol_stored]; cats := [tom; felix] |}.

Definition carol_created : Outcome :=
  Json (MessageResponse "Category created"
          (JObj [("user_name", JStr "carol"); ("email", JStr "not-an-email")])).

(** A cat body in which the client names Alice as owner, and a file and a
    location of its own choosing. *)
Definition kitty : CatBody :=
  {| body_cat_name := Some "Kitty"; body_weight := Some 2;
     body_owner := Some "u1"; body_filename := Some "forged.png";
     body_birthdate := Some "2023-03-03";
     body_location := Some {| point_type := "Point"; coordinates := (0, 0) |} |}.

Definition upload : File := {| file_filename := "a1b2c3" |}.

Definition helsinki : Point :=
  {| point_type := "Point"; coordinates := (24.9375, 60.1875) |}.

Definition kitty_request : Request unit CatBody unit :=
  {| req_contexts := []; params := tt; body := kitty; query := tt;
     file := Some upload |}.

Definition bob_in_helsinki : Locals :=
  {| user := Some bob_login; coords := Some helsinki |}.

Definition draw_cat : Random := {| salt := ""; objectId := "c3" |}.

Definition kitty_stored : Cat :=
  {| cat_id := "c3"; cat_name := "Kitty"; weight := 2; owner := "u2";
     filename := "a1b2c3"; birthdate := "2023-03-03"; location := helsinki |}.

Definition store_with_kitty : Store :=
  {| users := [alice; bob]; cats := [tom; felix; kitty_stored] |}.

Definition kitty_created : Outcome :=
  Json (MessageResponse "Cat created" (cat_json_with (user_json bob) kitty_stored)).

(** A principal whose record is not in the store. *)
Definition ghost_login : LoginUser :=
  {| login_id := "65f0c0ffee0000000000beef"; login_user_name := "ghost";
     login_email := "g@x.com";
     login_role := "user" |}.

Definition as_ghost : Locals := {| user := Some ghost_login; coords := None |}.

(** An administrator. *)
Definition root_login : LoginUser :=
  {| login_id := "u0"; login_user_name := "root"; login_email := "root@x.com";
     login_role := "admin" |}.

Definition as_root : Locals := {| user := Some root_login; coords := None |}.

(** A body in which a user asks for the role [admin]. *)
Definition promote : UserBody :=
  {| body_user_name := None; body_email := None; body_password := None;
     body_role := Some "admin"; body_contexts := [] |}.

Definition box : BoxQuery := {| topRight := "10,20"; bottomLeft := "0,0" |}.

End Sample.

(** ** Vocabulary of the properties *)

(** A computation that hands the store back as it found it. *)
Definition keeps_store {A} (m : M A) : Prop := forall s, snd (m s) = s.

(** A handler that never writes to the store. *)
Definition read_only (h : Handler) : Prop := forall s, snd (h s) = s.

(** A handler that has written nothing whenever it forwards an error. *)
Definition atomic (h : Handler) : Prop :=
  forall s e, fst (h s) = Next e -> snd (h s) = s.

(** A handler whose forwarded errors all carry one of the given statuses. *)
Definition forwards_only (allowed : list Z) (h : Handler) : Prop :=
  forall s e, fst (h s) = Next e ->
    exists m st, e = CustomError m st /\ In st allowed.

(** What [populate] puts in the [owner] path of a cat read from a store. *)
Definition owner_value (spec : option string) (s : Store) (c : Cat) : json :=
  match find_user (owner c) (users s) with
  | Some u =>
      match spec with
      | Some fields => select fields (user_json u)
      | None => user_json u
      end
  | None => JNull
  end.

(** A cat as a response shows it, its owner populated from the store. *)
Definition populated (spec : option string) (s : Store) (c : Cat) : json :=
  cat_json_with (owner_value spec s c) c.

(** A hexadecimal digit. *)
Definition is_hex_digit (c : ascii) : bool :=
  let n := nat_of_ascii c in
  ((Nat.leb 48 n && Nat.leb n 57) || (Nat.leb 97 n && Nat.leb n 102)
   || (Nat.leb 65 n && Nat.leb n 70))%bool.

(** An identifier Mongoose casts to an [ObjectId] whatever its version: a
    string of 24 hexadecimal digits.  The lookups of the two models stand
    for lookups by such identifiers; the [CastError] a lookup raises for
    another string is not modelled, so a statement about an identifier that
    need not be in the store assumes it well formed. *)
Definition well_formed_id (i : Id) : bool :=
  (Nat.eqb (String.length i) 24
   && forallb is_hex_digit (list_ascii_of_string i))%bool.

(** No two documents of a collection share an identifier. *)
Definition unique_ids (s : Store) : Prop :=
  NoDup (map _id (users s)) /\ NoDup (map cat_id (cats s)).

(** * Properties *)

(** ** The monad and the store *)

Lemma bind_ret {A B} (a : A) (k : A -> M B) (s : Store) : bind (ret a) k s = k a s.
Proof. reflexivity. Qed.

Lemma bind_throw {A B} (e : Error) (k : A -> M B) (s : Store) :
  bind (throw e) k s = (inl e, s).
Proof. reflexivity. Qed.

Lemma find_user_id (i : Id) (l : list User) (u : User) :
  find_user i l = Some u -> _id u = i.
Proof.
  unfold find_user. intros H. apply find_some in H as [_ H].
  now apply String.eqb_eq.
Qed.

Lemma find_cat_id (i : Id) (l : list Cat) (c : Cat) :
  find_cat i l = Some c -> cat_id c = i.
Proof.
  unfold find_cat. intros H. apply find_some in H as [_ H].
  now apply String.eqb_eq.
Qed.

(** Deleting an identifier no document has leaves the collection as it is. *)
Lemma remove_first_absent (i : Id) (l : list User) :
  find_user i l = None -> userModel.remove_first i l = l.
Proof.
  induction l as [|u l IH]; simpl; [reflexivity|].
  destruct (String.eqb (_id u) i); [discriminate|].
  intros H. now rewrite IH.
Qed.

(** ** The validation gate of the cat controller *)

(** With a non-empty validation result, a handler that throws the 400 error
    inside its own [try] hands [next] a 500 error with the joined messages,
    and the store is not touched. *)
Ltac rejects :=
  intros;
  match goal with
  | H : req_contexts ?r <> [] |- _ =>
      unfold try_catch, validationResult, contexts, Request_Validated;
      destruct (req_contexts r) as [|e errors] eqn:E;
      [ now contradiction H | reflexivity ]
  end.

Lemma catPut_rejects req res s :
  req_contexts req <> [] ->
  catController.catPut req res s
  = (Next (CustomError (messages (req_contexts req)) 500), s).
Proof. unfold catController.catPut. rejects. Qed.

Lemma catDelete_rejects req res s :
  req_contexts req <> [] ->
  catController.catDelete req res s
  = (Next (CustomError (messages (req_contexts req)) 500), s).
Proof. unfold catController.catDelete. rejects. Qed.

Lemma catPutAdmin_rejects req res s :
  req_contexts req <> [] ->
  catController.catPutAdmin req res s
  = (Next (CustomError (messages (req_contexts req)) 500), s).
Proof. unfold catController.catPutAdmin. rejects. Qed.

Lemma catDeleteAdmin_rejects req res s :
  req_contexts req <> [] ->
  catController.catDeleteAdmin req res s
  = (Next (CustomError (messages (req_contexts req)) 500), s).
Proof. unfold catController.catDeleteAdmin. rejects. Qed.

Lemma catPost_rejects rnd req res s :
  req_contexts req <> [] ->
  catController.catPost rnd req res s
  = (Next (CustomError (messages (req_contexts req)) 500), s).
Proof. unfold catController.catPost. rejects. Qed.

(** Asking for a cat no document has the identifier of: 404. *)
Lemma catGet_not_found req res s :
  req_contexts req = [] ->
  find_cat (id (params req)) (cats s) = None ->
  catController.catGet req res s = (Next (CustomError "No cat found" 404), s).
Proof.
  intros Hv Hc.
  unfold catController.catGet, try_catch, validationResult, contexts,
    Request_Validated.
  rewrite Hv. simpl. unfold bind, catModel.findById. simpl.
  rewrite Hc. reflexivity.
Qed.

(** ** Owner routes *)

(** [catDelete] and [catPut] never read the principal. *)
Lemma catDelete_any_principal req res res' s :
  catController.catDelete req res s = catController.catDelete req res' s.
Proof. reflexivity. Qed.

Lemma catPut_any_principal req res res' s :
  catController.catPut req res s = catController.catPut req res' s.
Proof. reflexivity. Qed.

(** Whoever asks, [catDelete] deletes a stored cat and reports success. *)
Lemma catDelete_deletes_for_anyone req res s c :
  req_contexts req = [] ->
  find_cat (id (params req)) (cats s) = Some c ->
  exists data,
    catController.catDelete req res s
    = (Json (MessageResponse "Cat deleted" data),
       {| users := users s;
          cats := catModel.remove_first (id (params req)) (cats s) |}).
Proof.
  intros Hv Hc.
  unfold catController.catDelete, try_catch, validationResult, contexts,
    Request_Validated.
  rewrite Hv. simpl.
  unfold bind, catModel.findByIdAndDelete. simpl. rewrite Hc. simpl.
  eexists. reflexivity.
Qed.

(** C1, on the code: Bob is not the owner of Alice's cat, yet his
    owner-scoped delete removes it and his owner-scoped update rewrites it
    (even its owner), both with a success envelope; no Forbidden error. *)
Theorem owner_routes_skip_ownership_check :
  login_id Sample.bob_login <> owner Sample.tom
  /\ catController.catDelete
       (Sample.request [] {| id := "c1" |} tt tt) Sample.as_bob Sample.store
     = (Json (MessageResponse "Cat deleted"
               (cat_json_with (user_json Sample.alice) Sample.tom)),
        {| users := [Sample.alice; Sample.bob]; cats := [Sample.felix] |})
  /\ catController.catPut
       (Sample.request [] {| id := "c1" |} Sample.rename tt) Sample.as_bob
       Sample.store
     = (Json (MessageResponse "Cat updated"
               (cat_json_with
                  (JObj [("_id", JStr "u2"); ("user_name", JStr "bob");
                         ("email", JStr "b@x.com")])
                  (catModel.apply_update Sample.rename Sample.tom))),
        {| users := [Sample.alice; Sample.bob];
           cats := [catModel.apply_update Sample.rename Sample.tom; Sample.felix] |}).
Proof.
  split; [discriminate|].
  split; reflexivity.
Qed.

(** ** Admin routes *)

(** A principal who is not an admin gets no answer at all from the admin
    routes: neither [res.json] nor [next] is called; the store is kept. *)
Lemma admin_routes_silent req res s u :
  req_contexts req = [] ->
  user res = Some u ->
  login_role u <> "admin" ->
  catController.catPutAdmin req res s = (NoResponse, s)
  /\ catController.catDeleteAdmin req res s = (NoResponse, s).
Proof.
  intros Hv Hu Hr.
  unfold catController.catPutAdmin, catController.catDeleteAdmin, try_catch,
    validationResult, contexts, Request_Validated.
  rewrite Hv, Hu. simpl. unfold bind. simpl.
  destruct (String.eqb_spec (login_role u) "admin") as [E|_]; [contradiction|].
  split; reflexivity.
Qed.

(** C2, on the code: Bob, whose role is [user], calls the admin delete and
    the admin update on a stored cat.  The store is kept, but the handler
    ends without any response: no Forbidden error is forwarded. *)
Theorem admin_routes_no_forbidden :
  login_role Sample.bob_login <> "admin"
  /\ catController.catDeleteAdmin
       (Sample.request [] {| id := "c1" |} Sample.no_change tt) Sample.as_bob
       Sample.store
     = (NoResponse, Sample.store)
  /\ catController.catPutAdmin
       (Sample.request [] {| id := "c1" |} Sample.rename tt) Sample.as_bob
       Sample.store
     = (NoResponse, Sample.store).
Proof.
  split; [discriminate|].
  split; reflexivity.
Qed.

(** ** Validation results in the user controller *)

(** [userGet] and [userPost] behave the same whatever the validation result
    holds: the error they build from it is never thrown. *)
Lemma userGet_ignores_validation errors errors' p res s :
  userController.userGet (Sample.request errors p tt tt) res s
  = userController.userGet (Sample.request errors' p tt tt) res s.
Proof. reflexivity. Qed.

Lemma userPost_ignores_validation bcrypt_hash rnd errors errors' b res s :
  userController.userPost bcrypt_hash rnd (Sample.request errors tt b tt) res s
  = userController.userPost bcrypt_hash rnd (Sample.request errors' tt b tt) res s.
Proof. reflexivity. Qed.

(** C3, on the code: with two validation errors on the request, [userPost]
    still stores the user and answers with success, [userGet] still reads
    the store and answers, and [catPut], which does stop before the
    database, forwards the joined messages under status 500, not 400. *)
Theorem validation_errors_not_enforced :
  Sample.bad_email <> []
  /\ userController.userPost Sample.toy_hash Sample.draw
       (Sample.request Sample.bad_email tt Sample.carol tt) Sample.anonymous
       Sample.store
     = (Sample.carol_created, Sample.store_with_carol)
  /\ userController.userGet
       (Sample.request Sample.bad_email {| id := "u1" |} tt tt)
       Sample.anonymous Sample.store
     = (Json (select "-role" (user_json Sample.alice)), Sample.store)
  /\ catController.catPut
       (Sample.request Sample.bad_email {| id := "c1" |} Sample.rename tt)
       Sample.as_bob Sample.store
     = (Next (CustomError "Invalid value: email, Invalid value: password" 500),
        Sample.store).
Proof.
  split; [discriminate|].
  repeat split; reflexivity.
Qed.

(** ** User projections *)

(** [select('-role')] drops the role and nothing else: the stored password
    hash stays in the projection. *)
Lemma select_minus_role (u : User) :
  select "-role" (user_json u)
  = JObj [("_id", JStr (_id u)); ("user_name", JStr (user_name u));
          ("email", JStr (email u)); ("password", JStr (password u))].
Proof. reflexivity. Qed.

(** The sibling projection of [userPutCurrent] drops both. *)
Lemma select_minus_password_role (u : User) :
  select "-password -role" (user_json u)
  = JObj [("_id", JStr (_id u)); ("user_name", JStr (user_name u));
          ("email", JStr (email u))].
Proof. reflexivity. Qed.

Lemma userGet_found req res s u :
  find_user (id (params req)) (users s) = Some u ->
  userController.userGet req res s = (Json (select "-role" (user_json u)), s).
Proof.
  intros H. unfold userController.userGet, try_catch, bind, userModel.findById.
  simpl. rewrite H. reflexivity.
Qed.

Lemma userListGet_all req res s :
  userController.userListGet req res s
  = (Json (JArr (map (fun u => select "-role" (user_json u)) (users s))), s).
Proof. reflexivity. Qed.

(** [userPutCurrent], the sibling path, answers without password and role. *)
Lemma userPutCurrent_projection req res s u stored :
  req_contexts req = [] ->
  user res = Some u ->
  find_user (login_id u) (users s) = Some stored ->
  fst (userController.userPutCurrent req res s)
  = Json (MessageResponse "User updated"
            (select "-password -role"
               (user_json (userModel.apply_update (body req) stored)))).
Proof.
  intros Hv Hu Hs.
  unfold userController.userPutCurrent, try_catch, validationResult, contexts,
    Request_Validated.
  rewrite Hv, Hu. simpl. unfold bind, userModel.findByIdAndUpdate. simpl.
  rewrite Hs. reflexivity.
Qed.

(** C4, on the code: the record [userGet] returns for Alice, and every
    record [userListGet] returns, has no [role] field but does carry the
    [password] field with the stored hash. *)
Theorem user_reads_keep_password :
  (exists j,
     userController.userGet (Sample.request [] {| id := "u1" |} tt tt)
       Sample.anonymous Sample.store = (Json j, Sample.store)
     /\ field "role" j = None
     /\ field "password" j = Some (JStr (password Sample.alice)))
  /\ (exists ja jb,
        userController.userListGet (Sample.request [] tt tt tt)
          Sample.anonymous Sample.store = (Json (JArr [ja; jb]), Sample.store)
        /\ field "role" ja = None /\ field "role" jb = None
        /\ field "password" ja = Some (JStr (password Sample.alice))
        /\ field "password" jb = Some (JStr (password Sample.bob))).
Proof.
  split.
  - eexists. repeat split; reflexivity.
  - do 2 eexists. repeat split; reflexivity.
Qed.

(** ** The bounding-box query *)

Section Rectangle.

Variables t_lat t_lng b_lat b_lng : Q.

Lemma rectangleBounds_ring :
  polygon_coordinates
    (rectangleBounds {| lat := Some t_lat; lng := Some t_lng |}
                     {| lat := Some b_lat; lng := Some b_lng |})
  = [map (fun p => (Some (fst p), Some (snd p)))
       (rectangle_ring t_lat t_lng b_lat b_lng)]
  /\ positions (map (fun p => (Some (fst p), Some (snd p)))
                  (rectangle_ring t_lat t_lng b_lat b_lng))
     = Some (rectangle_ring t_lat t_lng b_lat b_lng).
Proof. split; reflexivity. Qed.

Lemma geoWithin_inside (p : Q * Q) :
  Qmin t_lng b_lng < fst p -> fst p < Qmax t_lng b_lng ->
  Qmin t_lat b_lat < snd p -> snd p < Qmax t_lat b_lat ->
  geoWithin (rectangle_ring t_lat t_lng b_lat b_lng) p = true.
Proof.
  intros H1 H2 H3 H4. unfold geoWithin. simpl.
  rewrite !andb_true_iff, !Qle_bool_iff, !Q.min_le_iff, !Q.max_le_iff.
  apply Q.min_lt_iff in H1, H3. apply Q.max_lt_iff in H2, H4.
  intuition lra.
Qed.

Lemma geoWithin_outside (p : Q * Q) :
  fst p < Qmin t_lng b_lng \/ Qmax t_lng b_lng < fst p \/
  snd p < Qmin t_lat b_lat \/ Qmax t_lat b_lat < snd p ->
  geoWithin (rectangle_ring t_lat t_lng b_lat b_lng) p = false.
Proof.
  intros H. unfold geoWithin. simpl.
  apply not_true_is_false.
  rewrite !andb_true_iff, !Qle_bool_iff, !Q.min_le_iff, !Q.max_le_iff.
  rewrite Q.min_glb_lt_iff, Q.max_lub_lt_iff, Q.min_glb_lt_iff,
    Q.max_lub_lt_iff in H.
  intuition lra.
Qed.

End Rectangle.

(** Asked with the rectangle of two corners, the store's query returns every
    cat strictly inside it and no cat strictly outside: the geometry and the
    operator do what the spec asks once both corners are read alike. *)
Lemma rectangle_query_returns_inside (a b : LatLng) (s : Store) (c : Cat) :
  In c (cats s) ->
  strictly_inside a b (coordinates (location c)) ->
  exists found,
    catModel.find_geoWithin (rectangleBounds a b) s = (inr found, s)
    /\ In c found.
Proof.
  intros Hc (a1 & a2 & b1 & b2 & E1 & E2 & E3 & E4 & H1 & H2 & H3 & H4).
  destruct a as [la lo], b as [lb lob]. simpl in E1, E2, E3, E4. subst.
  unfold catModel.find_geoWithin. simpl.
  eexists. split; [reflexivity|].
  apply filter_In. split; [exact Hc|].
  now apply (geoWithin_inside a1 a2 b1 b2).
Qed.

Lemma rectangle_query_excludes_outside (a b : LatLng) (s : Store) (c : Cat) :
  strictly_outside a b (coordinates (location c)) ->
  exists found,
    catModel.find_geoWithin (rectangleBounds a b) s = (inr found, s)
    /\ ~ In c found.
Proof.
  intros (a1 & a2 & b1 & b2 & E1 & E2 & E3 & E4 & H).
  destruct a as [la lo], b as [lb lob]. simpl in E1, E2, E3, E4. subst.
  unfold catModel.find_geoWithin. simpl.
  eexists. split; [reflexivity|].
  intros Hin. apply filter_In in Hin as [_ Hin].
  pose proof (geoWithin_outside a1 a2 b1 b2 _ H) as G.
  unfold rectangle_ring in G. rewrite G in Hin. discriminate.
Qed.

(** The handler does not read both corners alike: the first number of
    [topRight] becomes a longitude, the first number of [bottomLeft] a
    latitude. *)
Lemma catGetByBoundingBox_corners req res s :
  req_contexts req = [] ->
  catController.catGetByBoundingBox req res s
  = try_catch
      (cats <- catModel.find_geoWithin
                 (rectangleBounds
                    {| lat := lng (spec_corner (topRight (query req)));
                       lng := lat (spec_corner (topRight (query req))) |}
                    (spec_corner (bottomLeft (query req)))) ;;
       ret (Json (JArr (map cat_json cats))))
      (fun error => Next (CustomError (message error) 500)) s.
Proof.
  intros Hv.
  unfold catController.catGetByBoundingBox, try_catch, validationResult,
    contexts, Request_Validated.
  rewrite Hv. reflexivity.
Qed.

(** C5, on the code: for the corners ["10,20"] and ["0,0"], Tom (latitude 5,
    longitude 15) lies strictly inside the rectangle and Felix (latitude 15,
    longitude 5) strictly outside, yet the query returns Felix and not Tom. *)
Theorem bounding_box_swaps_top_right :
  strictly_inside (spec_corner (topRight Sample.box))
    (spec_corner (bottomLeft Sample.box)) (coordinates (location Sample.tom))
  /\ strictly_outside (spec_corner (topRight Sample.box))
       (spec_corner (bottomLeft Sample.box))
       (coordinates (location Sample.felix))
  /\ catController.catGetByBoundingBox (Sample.request [] tt tt Sample.box)
       Sample.anonymous Sample.store
     = (Json (JArr [cat_json Sample.felix]), Sample.store).
Proof.
  split; [|split].
  - exists 10, 20, 0, 0. repeat split; reflexivity.
  - exists 10, 20, 0, 0. repeat split; try reflexivity.
    right. right. right. reflexivity.
  - reflexivity.
Qed.

(** ** Creating a user *)

(** A body with a name, an email and a password is stored, under a fresh
    identifier, with the hash for password and [user] for role. *)
Lemma userPost_creates bcrypt_hash rnd req res s n e p :
  body_user_name (body req) = Some n -> n <> "" ->
  body_email (body req) = Some e -> e <> "" ->
  body_password (body req) = Some p -> bcrypt_hash p (salt rnd) <> "" ->
  find_user (objectId rnd) (users s) = None ->
  userController.userPost bcrypt_hash rnd req res s
  = (Json (MessageResponse "Category created"
            (JObj [("user_name", JStr n); ("email", JStr e)])),
     {| users := users s ++ [{| _id := objectId rnd; user_name := n; email := e;
                                role := "user";
                                password := bcrypt_hash p (salt rnd) |}];
        cats := cats s |}).
Proof.
  intros Hn Hn' He He' Hp Hp' Hid.
  unfold userController.userPost, try_catch, bind, userController.hash,
    userModel.create.
  rewrite Hp. simpl. rewrite Hn, He.
  destruct n; [contradiction|]. destruct e; [contradiction|].
  destruct (bcrypt_hash p (salt rnd)) eqn:Eh; [contradiction|].
  simpl. rewrite Hid. reflexivity.
Qed.

(** C6: whatever the request, [userPost] either stores nothing and forwards
    a 500 error, or stores exactly one new user, whose role is [user]
    whatever role the body carried, and answers with the envelope whose
    data is [{user_name, email}] of that user: no [password] field and no
    [role] field in it. *)
Theorem userPost_role_and_projection bcrypt_hash rnd req res s out s' :
  userController.userPost bcrypt_hash rnd req res s = (out, s') ->
  (s' = s /\ exists m, out = Next (CustomError m 500))
  \/ (exists u data,
        s' = {| users := users s ++ [u]; cats := cats s |}
        /\ role u = "user"
        /\ body_user_name (body req) = Some (user_name u)
        /\ body_email (body req) = Some (email u)
        /\ out = Json (MessageResponse "Category created" data)
        /\ data = JObj [("user_name", JStr (user_name u));
                        ("email", JStr (email u))]
        /\ field "password" data = None
        /\ field "role" data = None).
Proof.
  unfold userController.userPost, try_catch, bind, userController.hash,
    userModel.create.
  destruct (body_password (body req)) as [p|]; simpl.
  2:{ intros H. injection H as <- <-. left. split; [reflexivity|]. eexists. reflexivity. }
  destruct (body_user_name (body req)) as [[|c n]|]; simpl;
    try (intros H; injection H as <- <-; left; split; [reflexivity|];
         eexists; reflexivity).
  destruct (body_email (body req)) as [[|d e]|]; simpl;
    try (intros H; injection H as <- <-; left; split; [reflexivity|];
         eexists; reflexivity).
  destruct (bcrypt_hash p (salt rnd)) as [|h hs]; simpl;
    try (intros H; injection H as <- <-; left; split; [reflexivity|];
         eexists; reflexivity).
  destruct (find_user (objectId rnd) (users s)); simpl;
    intros H; injection H as <- <-.
  - left. split; [reflexivity|]. eexists. reflexivity.
  - right. do 2 eexists. repeat split; reflexivity.
Qed.

(** Carol asks for the role [admin]; she is stored with the role [user]. *)
Lemma userPost_role_and_projection_witness :
  body_role Sample.carol = Some "admin"
  /\ userController.userPost Sample.toy_hash Sample.draw
       (Sample.request [] tt Sample.carol tt) Sample.anonymous Sample.store
     = (Sample.carol_created, Sample.store_with_carol)
  /\ ((Sample.store_with_carol = Sample.store
       /\ exists m, Sample.carol_created = Next (CustomError m 500))
      \/ (exists u data,
            Sample.store_with_carol
            = {| users := users Sample.store ++ [u]; cats := cats Sample.store |}
            /\ role u = "user"
            /\ body_user_name Sample.carol = Some (user_name u)
            /\ body_email Sample.carol = Some (email u)
            /\ Sample.carol_created
               = Json (MessageResponse "Category created" data)
            /\ data = JObj [("user_name", JStr (user_name u));
                            ("email", JStr (email u))]
            /\ field "password" data = None
            /\ field "role" data = None)).
Proof.
  split; [reflexivity|].
  split; [reflexivity|].
  exact (userPost_role_and_projection Sample.toy_hash Sample.draw
           (Sample.request [] tt Sample.carol tt) Sample.anonymous Sample.store
           Sample.carol_created Sample.store_with_carol eq_refl).
Defined.

(** ** Creating a cat *)

(** With a file, a principal, a resolved coordinate and a body that names
    the cat, its weight and its birthdate, the cat is stored under a fresh
    identifier; what the body said of owner, filename and location is
    overwritten. *)
Lemma catPost_creates rnd req res s f u l n w b :
  req_contexts req = [] ->
  file req = Some f -> file_filename f <> "" ->
  user res = Some u -> coords res = Some l ->
  body_cat_name (body req) = Some n -> n <> "" ->
  body_weight (body req) = Some w ->
  body_birthdate (body req) = Some b ->
  find_cat (objectId rnd) (cats s) = None ->
  exists data,
    catController.catPost rnd req res s
    = (Json (MessageResponse "Cat created" data),
       {| users := users s;
          cats := cats s ++ [{| cat_id := objectId rnd; cat_name := n;
                                weight := w; owner := login_id u;
                                filename := file_filename f; birthdate := b;
                                location := l |}] |}).
Proof.
  intros Hv Hf Hf' Hu Hl Hn Hn' Hw Hb Hid.
  unfold catController.catPost, try_catch, validationResult, contexts,
    Request_Validated.
  rewrite Hv, Hf, Hu, Hl. simpl. unfold bind, catModel.create. simpl.
  rewrite Hn, Hw, Hb.
  destruct n; [contradiction|].
  destruct (file_filename f) eqn:Ef; [contradiction|].
  simpl. rewrite Hid. simpl. eexists. reflexivity.
Qed.

(** C8: whatever the request, [catPost] either stores nothing and forwards
    a 500 error, or stores exactly one new cat and answers with the
    [Cat created] envelope; the stored cat's owner is the principal's id,
    its filename the uploaded file's name and its location the coordinate
    found in the locals, whatever the body carried for the three. *)
Theorem catPost_owner_filename_location rnd req res s out s' :
  catController.catPost rnd req res s = (out, s') ->
  (s' = s /\ exists m, out = Next (CustomError m 500))
  \/ (exists c u f l data,
        s' = {| users := users s; cats := cats s ++ [c] |}
        /\ user res = Some u /\ owner c = login_id u
        /\ file req = Some f /\ filename c = file_filename f
        /\ coords res = Some l /\ location c = l
        /\ out = Json (MessageResponse "Cat created" data)).
Proof.
  unfold catController.catPost, try_catch, validationResult, contexts,
    Request_Validated.
  destruct (req_contexts req); simpl;
    [| intros H; injection H as <- <-; left; split; [reflexivity|];
       eexists; reflexivity].
  destruct (file req) as [f|]; simpl;
    [| intros H; injection H as <- <-; left; split; [reflexivity|];
       eexists; reflexivity].
  destruct (user res) as [u|]; simpl;
    [| intros H; injection H as <- <-; left; split; [reflexivity|];
       eexists; reflexivity].
  unfold bind, catModel.create. simpl.
  destruct (required (body_cat_name (body req))) as [n|];
    [| intros H; injection H as <- <-; left; split; [reflexivity|];
       eexists; reflexivity].
  destruct (body_weight (body req)) as [w|];
    [| intros H; injection H as <- <-; left; split; [reflexivity|];
       eexists; reflexivity].
  destruct (file_filename f) as [|ch fn] eqn:Ef; simpl;
    [ intros H; injection H as <- <-; left; split; [reflexivity|];
      eexists; reflexivity |].
  destruct (body_birthdate (body req)) as [b|];
    [| intros H; injection H as <- <-; left; split; [reflexivity|];
       eexists; reflexivity].
  destruct (coords res) as [l|];
    [| intros H; injection H as <- <-; left; split; [reflexivity|];
       eexists; reflexivity].
  destruct (find_cat (objectId rnd) (cats s)); simpl;
    intros H; injection H as <- <-.
  - left. split; [reflexivity|]. eexists. reflexivity.
  - right. do 5 eexists. repeat split; try reflexivity. simpl. now rewrite Ef.
Qed.

(** Bob uploads a cat whose body names Alice as owner: the stored cat is
    Bob's, with the uploaded file's name and the resolved coordinate. *)
Lemma catPost_owner_filename_location_witness :
  body_owner Sample.kitty = Some "u1"
  /\ catController.catPost Sample.draw_cat Sample.kitty_request
       Sample.bob_in_helsinki Sample.store
     = (Sample.kitty_created, Sample.store_with_kitty)
  /\ ((Sample.store_with_kitty = Sample.store
       /\ exists m, Sample.kitty_created = Next (CustomError m 500))
      \/ (exists c u f l data,
            Sample.store_with_kitty
            = {| users := users Sample.store; cats := cats Sample.store ++ [c] |}
            /\ user Sample.bob_in_helsinki = Some u /\ owner c = login_id u
            /\ file Sample.kitty_request = Some f
            /\ filename c = file_filename f
            /\ coords Sample.bob_in_helsinki = Some l /\ location c = l
            /\ Sample.kitty_created = Json (MessageResponse "Cat created" data))).
Proof.
  split; [reflexivity|].
  split; [reflexivity|].
  exact (catPost_owner_filename_location Sample.draw_cat Sample.kitty_request
           Sample.bob_in_helsinki Sample.store Sample.kitty_created
           Sample.store_with_kitty eq_refl).
Defined.

(** ** Checking the token *)

(** C9: [checkToken] forwards the 403 error [token not valid] exactly when
    no principal is attached (and forwards no other error); with a principal
    attached it sends [{_id, user_name, email}] read off the principal.  The
    answer does not depend on the store, which is handed back untouched. *)
Theorem checkToken_projection_or_403 :
  forall (req : Request unit unit unit) (res : Locals) (s : Store),
    userController.checkToken req res s
    = (match user res with
       | None => Next (CustomError "token not valid" 403)
       | Some u =>
           Json (JObj [("_id", JStr (login_id u));
                       ("user_name", JStr (login_user_name u));
                       ("email", JStr (login_email u))])
       end, s)
    /\ (fst (userController.checkToken req res s)
        = Next (CustomError "token not valid" 403) <-> user res = None)
    /\ ((exists e, fst (userController.checkToken req res s) = Next e)
        <-> user res = None).
Proof.
  intros req res s. unfold userController.checkToken. simpl.
  destruct (user res) as [u|].
  - split; [reflexivity|].
    split; split; try discriminate.
    intros [e H]. discriminate.
  - split; [reflexivity|].
    split; split; try reflexivity.
    intros _. eexists. reflexivity.
Qed.

(** ** Deleting the current user *)

(** Whatever the request, a 404 error comes only without a principal. *)
Lemma userDeleteCurrent_404_only_anonymous req res s :
  fst (userController.userDeleteCurrent req res s)
  = Next (CustomError "No user found" 404) ->
  user res = None.
Proof.
  unfold userController.userDeleteCurrent, try_catch, validationResult,
    contexts, UserBody_Validated.
  destruct (body_contexts (body req)); simpl; [|discriminate].
  destruct (user res); [|reflexivity].
  unfold bind. simpl. discriminate.
Qed.

(** C10, on the code: Bob is attached as principal and validation of the
    request reports nothing, but the handler asks the validation result of
    [req.body], where every other handler asks it of [req]; the body
    carrying two errors, it forwards a 400 error (its message the separator
    alone, every mapped message being [undefined]) instead of the success
    envelope, and deletes nothing. *)
Lemma userDeleteCurrent_flagged_body :
  user Sample.as_bob = Some Sample.bob_login
  /\ userController.userDeleteCurrent
       (Sample.request [] tt Sample.flagged_body tt) Sample.as_bob Sample.store
     = (Next (CustomError ", " 400), Sample.store)
  /\ fst (userController.userDeleteCurrent
            (Sample.request [] tt Sample.flagged_body tt) Sample.as_bob
            Sample.store)
     <> Json (MessageResponse "User deleted"
                (userController.identity_json Sample.bob_login)).
Proof.
  split; [reflexivity|].
  split; [reflexivity|].
  discriminate.
Qed.

(** X20: when the validation result read off the body is empty, a request
    with a principal attached, the principal's id being a well-formed
    identifier, is answered with the envelope
    [{message: 'User deleted', data: {_id, user_name, email}}] echoing the
    principal; the delete's result is not looked at, so the answer is the
    same when no user has the principal's id, in which case the store is
    left as it was; and the 404 error [No user found] is forwarded exactly
    when no principal is attached. *)
Theorem userDeleteCurrent_echoes_principal :
  forall (req : Request unit UserBody unit) (res : Locals) (s : Store),
    validationResult (body req) = [] ->
    (forall u,
       user res = Some u ->
       well_formed_id (login_id u) = true ->
       userController.userDeleteCurrent req res s
       = (Json (JObj [("message", JStr "User deleted");
                      ("data",
                       JObj [("_id", JStr (login_id u));
                             ("user_name", JStr (login_user_name u));
                             ("email", JStr (login_email u))])]),
          {| users := userModel.remove_first (login_id u) (users s);
             cats := cats s |})
       /\ (find_user (login_id u) (users s) = None ->
           snd (userController.userDeleteCurrent req res s) = s))
    /\ (fst (userController.userDeleteCurrent req res s)
        = Next (CustomError "No user found" 404) <-> user res = None).
Proof.
  intros req res s Hv.
  assert (E : forall u, user res = Some u ->
              userController.userDeleteCurrent req res s
              = (Json (MessageResponse "User deleted"
                         (userController.identity_json u)),
                 {| users := userModel.remove_first (login_id u) (users s);
                    cats := cats s |})).
  { intros u Hu.
    unfold userController.userDeleteCurrent, try_catch.
    rewrite Hv, Hu. reflexivity. }
  split.
  - intros u Hu _. split; [exact (E u Hu)|].
    intros Habsent. rewrite (E u Hu). simpl.
    rewrite (remove_first_absent _ _ Habsent). now destruct s.
  - split; [apply userDeleteCurrent_404_only_anonymous|].
    intros Hu. unfold userController.userDeleteCurrent, try_catch.
    rewrite Hv, Hu. reflexivity.
Qed.

(** A principal with a well-formed id and no record in the store still
    gets the success envelope, and the store is unchanged. *)
Lemma userDeleteCurrent_echoes_principal_witness :
  validationResult (body (Sample.request [] tt Sample.empty_body tt)) = []
  /\ user Sample.as_ghost = Some Sample.ghost_login
  /\ well_formed_id (login_id Sample.ghost_login) = true
  /\ find_user (login_id Sample.ghost_login) (users Sample.store) = None
  /\ userController.userDeleteCurrent
       (Sample.request [] tt Sample.empty_body tt) Sample.as_ghost Sample.store
     = (Json (JObj [("message", JStr "User deleted");
                    ("data",
                     JObj [("_id", JStr "65f0c0ffee0000000000beef");
                           ("user_name", JStr "ghost");
                           ("email", JStr "g@x.com")])]),
        {| users := userModel.remove_first "65f0c0ffee0000000000beef"
                      (users Sample.store);
           cats := cats Sample.store |})
  /\ snd (userController.userDeleteCurrent
            (Sample.request [] tt Sample.empty_body tt) Sample.as_ghost
            Sample.store)
     = Sample.store.
Proof.
  split; [reflexivity|].
  split; [reflexivity|].
  split; [reflexivity|].
  split; [reflexivity|].
  pose proof (proj1 (userDeleteCurrent_echoes_principal
                       (Sample.request [] tt Sample.empty_body tt)
                       Sample.as_ghost Sample.store eq_refl)
                Sample.ghost_login eq_refl eq_refl) as [H1 H2].
  split; [exact H1 | exact (H2 eq_refl)].
Defined.

(** * Further properties of the two controllers *)

(** ** Stores and lookups *)

Lemma store_eta (s : Store) : {| users := users s; cats := cats s |} = s.
Proof. now destruct s. Qed.

Lemma populate_owner_value spec c s :
  populate_owner spec c s = (inr (populated spec s c), s).
Proof. reflexivity. Qed.

Lemma populate_owners_map l s :
  populate_owners l s = (inr (map (populated None s) l), s).
Proof.
  induction l as [|c l IH]; [reflexivity|].
  simpl. unfold bind. rewrite populate_owner_value, IH. reflexivity.
Qed.

Lemma cat_update_absent i b l :
  find_cat i l = None -> catModel.update_first i b l = l.
Proof.
  induction l as [|c l IH]; simpl; [reflexivity|].
  destruct (String.eqb (cat_id c) i); [discriminate|].
  intros H. now rewrite IH.
Qed.

Lemma cat_remove_absent i l :
  find_cat i l = None -> catModel.remove_first i l = l.
Proof.
  induction l as [|c l IH]; simpl; [reflexivity|].
  destruct (String.eqb (cat_id c) i); [discriminate|].
  intros H. now rewrite IH.
Qed.

Lemma user_update_absent i b l :
  find_user i l = None -> userModel.update_first i b l = l.
Proof.
  induction l as [|u l IH]; simpl; [reflexivity|].
  destruct (String.eqb (_id u) i); [discriminate|].
  intros H. now rewrite IH.
Qed.

Lemma find_cat_update_same i b l :
  find_cat i (catModel.update_first i b l)
  = option_map (catModel.apply_update b) (find_cat i l).
Proof.
  induction l as [|c l IH]; simpl; [reflexivity|].
  destruct (String.eqb (cat_id c) i) eqn:E; simpl.
  - now rewrite E.
  - now rewrite E.
Qed.

Lemma find_cat_update_other i j b l :
  i <> j -> find_cat j (catModel.update_first i b l) = find_cat j l.
Proof.
  intros Hij. induction l as [|c l IH]; simpl; [reflexivity|].
  destruct (String.eqb_spec (cat_id c) i) as [E|E]; simpl.
  - destruct (String.eqb_spec (cat_id c) j) as [E'|E']; [congruence|reflexivity].
  - now rewrite IH.
Qed.

Lemma find_cat_remove_other i j l :
  i <> j -> find_cat j (catModel.remove_first i l) = find_cat j l.
Proof.
  intros Hij. induction l as [|c l IH]; simpl; [reflexivity|].
  destruct (String.eqb_spec (cat_id c) i) as [E|E]; simpl.
  - destruct (String.eqb_spec (cat_id c) j) as [E'|E']; [congruence|reflexivity].
  - now rewrite IH.
Qed.

Lemma find_cat_none_iff i l : find_cat i l = None <-> ~ In i (map cat_id l).
Proof.
  induction l as [|c l IH]; simpl; [tauto|].
  destruct (String.eqb_spec (cat_id c) i) as [E|E].
  - split; [discriminate | intros H; exfalso; apply H; now left].
  - rewrite IH. tauto.
Qed.

Lemma find_user_none_iff i l : find_user i l = None <-> ~ In i (map _id l).
Proof.
  induction l as [|u l IH]; simpl; [tauto|].
  destruct (String.eqb_spec (_id u) i) as [E|E].
  - split; [discriminate | intros H; exfalso; apply H; now left].
  - rewrite IH. tauto.
Qed.

Lemma find_cat_remove_same i l :
  NoDup (map cat_id l) -> find_cat i (catModel.remove_first i l) = None.
Proof.
  induction l as [|c l IH]; simpl; [reflexivity|].
  intros H. inversion H as [|x xs Hx Hxs]; subst.
  destruct (String.eqb_spec (cat_id c) i) as [E|E]; simpl.
  - subst. now apply find_cat_none_iff.
  - destruct (String.eqb_spec (cat_id c) i); [contradiction|]. now apply IH.
Qed.

Lemma find_user_remove_same i l :
  NoDup (map _id l) -> find_user i (userModel.remove_first i l) = None.
Proof.
  induction l as [|u l IH]; simpl; [reflexivity|].
  intros H. inversion H as [|x xs Hx Hxs]; subst.
  destruct (String.eqb_spec (_id u) i) as [E|E]; simpl.
  - subst. now apply find_user_none_iff.
  - destruct (String.eqb_spec (_id u) i); [contradiction|]. now apply IH.
Qed.

Lemma find_cat_app_fresh i l c :
  find_cat i l = None -> cat_id c = i -> find_cat i (l ++ [c]) = Some c.
Proof.
  intros Hl Hc. induction l as [|d l IH]; simpl in *.
  - now rewrite Hc, String.eqb_refl.
  - destruct (String.eqb (cat_id d) i); [discriminate|]. now apply IH.
Qed.

Lemma find_user_app_fresh i l u :
  find_user i l = None -> _id u = i -> find_user i (l ++ [u]) = Some u.
Proof.
  intros Hl Hu. induction l as [|d l IH]; simpl in *.
  - now rewrite Hu, String.eqb_refl.
  - destruct (String.eqb (_id d) i); [discriminate|]. now apply IH.
Qed.

Lemma find_user_app_old i l u v :
  find_user i l = Some v -> find_user i (l ++ [u]) = Some v.
Proof.
  induction l as [|d l IH]; simpl; [discriminate|].
  destruct (String.eqb (_id d) i); [trivial|]. exact IH.
Qed.

Lemma find_user_update_same i b l :
  find_user i (userModel.update_first i b l)
  = option_map (userModel.apply_update b) (find_user i l).
Proof.
  induction l as [|u l IH]; simpl; [reflexivity|].
  destruct (String.eqb (_id u) i) eqn:E; simpl; now rewrite E.
Qed.

Lemma find_user_update_other i j b l :
  i <> j -> find_user j (userModel.update_first i b l) = find_user j l.
Proof.
  intros Hij. induction l as [|u l IH]; simpl; [reflexivity|].
  destruct (String.eqb_spec (_id u) i) as [E|E]; simpl.
  - destruct (String.eqb_spec (_id u) j) as [E'|E']; [congruence|reflexivity].
  - now rewrite IH.
Qed.

(** What [catPut] does once the validation result is empty. *)
Lemma catPut_run req res s :
  req_contexts req = [] ->
  catController.catPut req res s
  = match find_cat (id (params req)) (cats s) with
    | Some c =>
        (Json (MessageResponse "Cat updated"
                 (populated (Some "user_name email") s
                    (catModel.apply_update (body req) c))),
         {| users := users s;
            cats := catModel.update_first (id (params req)) (body req) (cats s) |})
    | None => (Next (CustomError "No species found" 404), s)
    end.
Proof.
  intros Hv.
  unfold catController.catPut, try_catch, validationResult, contexts,
    Request_Validated.
  rewrite Hv. simpl. unfold bind, catModel.findByIdAndUpdate. simpl.
  destruct (find_cat (id (params req)) (cats s)) eqn:E; simpl; [reflexivity|].
  now rewrite (cat_update_absent _ _ _ E), store_eta.
Qed.

Lemma userPutCurrent_run req res s u :
  req_contexts req = [] ->
  user res = Some u ->
  userController.userPutCurrent req res s
  = match find_user (login_id u) (users s) with
    | Some stored =>
        (Json (MessageResponse "User updated"
                 (select "-password -role"
                    (user_json (userModel.apply_update (body req) stored)))),
         {| users := userModel.update_first (login_id u) (body req) (users s);
            cats := cats s |})
    | None => (Next (CustomError "No user found" 500), s)
    end.
Proof.
  intros Hv Hu.
  unfold userController.userPutCurrent, try_catch, validationResult, contexts,
    Request_Validated.
  rewrite Hv, Hu. simpl. unfold bind, userModel.findByIdAndUpdate. simpl.
  destruct (find_user (login_id u) (users s)) eqn:E; simpl; [reflexivity|].
  now rewrite (user_update_absent _ _ _ E), store_eta.
Qed.

(** ** Handlers that only read *)

Lemma keeps_ret {A} (a : A) : keeps_store (ret a).
Proof. intros s. reflexivity. Qed.

Lemma keeps_throw {A} (e : Error) : keeps_store (@throw A e).
Proof. intros s. reflexivity. Qed.

Lemma keeps_bind {A B} (m : M A) (k : A -> M B) :
  keeps_store m -> (forall a, keeps_store (k a)) -> keeps_store (bind m k).
Proof.
  intros Hm Hk s. unfold bind. specialize (Hm s).
  destruct (m s) as [[e|a] s1]; simpl in *; subst; [reflexivity|].
  apply Hk.
Qed.

Lemma keeps_property {A} (x : option A) name : keeps_store (property x name).
Proof. destruct x; intros s; reflexivity. Qed.

Lemma keeps_populate_owner spec c : keeps_store (populate_owner spec c).
Proof. intros s. reflexivity. Qed.

Lemma keeps_populate_owners l : keeps_store (populate_owners l).
Proof. intros s. now rewrite populate_owners_map. Qed.

Lemma keeps_find_geoWithin bounds : keeps_store (catModel.find_geoWithin bounds).
Proof.
  intros s. unfold catModel.find_geoWithin.
  destruct (polygon_coordinates bounds) as [|r [|r' rs]]; try reflexivity.
  destruct (positions r); reflexivity.
Qed.

Lemma read_only_try_catch body handler :
  keeps_store body -> read_only (try_catch body handler).
Proof.
  intros H s. unfold try_catch. specialize (H s).
  destruct (body s) as [[e|o] s1]; exact H.
Qed.

(** A handler body made of reads, throws and returns keeps the store. *)
Ltac keeps :=
  cbv zeta;
  repeat first
    [ apply keeps_ret
    | apply keeps_throw
    | apply keeps_property
    | apply keeps_populate_owner
    | apply keeps_populate_owners
    | apply keeps_find_geoWithin
    | (intros ?; reflexivity)
    | apply keeps_bind; [|intros ?]
    | match goal with
      | |- keeps_store (if ?b then _ else _) => destruct b
      | |- keeps_store (match ?x with _ => _ end) => destruct x
      end ].

(** X1: The seven reading handlers leave the store exactly as they found it,
    whatever the request, the principal and the validation result. *)
Theorem reading_handlers_keep_store :
  (forall req res, read_only (catController.catGetByUser req res))
  /\ (forall req res, read_only (catController.catGetByBoundingBox req res))
  /\ (forall req res, read_only (catController.catGet req res))
  /\ (forall req res, read_only (catController.catListGet req res))
  /\ (forall req res, read_only (userController.userGet req res))
  /\ (forall req res, read_only (userController.userListGet req res))
  /\ (forall req res, read_only (userController.checkToken req res)).
Proof.
  repeat split; intros req res;
    try (apply read_only_try_catch; keeps).
Qed.

(** ** Errors and writes *)

Ltac handler_cases :=
  unfold try_catch, validationResult, contexts, Request_Validated,
    UserBody_Validated, bind, property;
  repeat match goal with
    | |- context [req_contexts ?r] => destruct (req_contexts r); simpl
    | |- context [body_contexts ?b] => destruct (body_contexts b); simpl
    | |- context [user ?r] => destruct (user r); simpl
    | |- context [file ?r] => destruct (file r); simpl
    | |- context [String.eqb (login_role ?u) ?a] =>
        destruct (String.eqb (login_role u) a); simpl
    end.

(** X2: Every writing handler of the cat controller is atomic: when it forwards
    an error to [next], no document was created, changed or deleted. *)
Theorem cat_writes_atomic :
  (forall req res, atomic (catController.catPut req res))
  /\ (forall req res, atomic (catController.catDelete req res))
  /\ (forall req res, atomic (catController.catPutAdmin req res))
  /\ (forall req res, atomic (catController.catDeleteAdmin req res))
  /\ (forall rnd req res, atomic (catController.catPost rnd req res)).
Proof.
  repeat split; intros; intros s e.
  - unfold catController.catPut. handler_cases; try (intros _; reflexivity).
    unfold catModel.findByIdAndUpdate. simpl.
    destruct (find_cat (id (params req)) (cats s)) eqn:E; simpl;
      [discriminate|].
    intros _. rewrite (cat_update_absent _ _ _ E). apply store_eta.
  - unfold catController.catDelete. handler_cases; try (intros _; reflexivity).
    unfold catModel.findByIdAndDelete. simpl.
    destruct (find_cat (id (params req)) (cats s)) eqn:E; simpl;
      [discriminate|].
    intros _. rewrite (cat_remove_absent _ _ E). apply store_eta.
  - unfold catController.catPutAdmin.
    handler_cases; try (intros _; reflexivity); try discriminate.
    unfold catModel.findByIdAndUpdate. simpl.
    destruct (find_cat (id (params req)) (cats s)) eqn:E; simpl;
      [discriminate|].
    intros _. rewrite (cat_update_absent _ _ _ E). apply store_eta.
  - unfold catController.catDeleteAdmin.
    handler_cases; try (intros _; reflexivity); try discriminate.
    unfold catModel.findByIdAndDelete. simpl.
    destruct (find_cat (id (params req)) (cats s)) eqn:E; simpl;
      [discriminate|].
    intros _. rewrite (cat_remove_absent _ _ E). apply store_eta.
  - unfold catController.catPost. handler_cases; try (intros _; reflexivity).
    unfold catModel.create. simpl.
    destruct (required (body_cat_name (body req)));
      [|intros _; reflexivity].
    destruct (body_weight (body req)); [|intros _; reflexivity].
    destruct (file_filename f) as [|ch fn]; simpl; [intros _; reflexivity|].
    destruct (body_birthdate (body req)); [|intros _; reflexivity].
    destruct (coords res); [|intros _; reflexivity].
    destruct (find_cat (objectId rnd) (cats s)); simpl;
      [intros _; reflexivity | discriminate].
Qed.

(** X3: The writing handlers of the user controller are atomic as well. *)
Theorem user_writes_atomic :
  (forall bcrypt_hash rnd req res,
     atomic (userController.userPost bcrypt_hash rnd req res))
  /\ (forall req res, atomic (userController.userPutCurrent req res))
  /\ (forall req res, atomic (userController.userDeleteCurrent req res)).
Proof.
  repeat split; intros; intros s e.
  - unfold userController.userPost, try_catch, bind, userController.hash,
      userModel.create.
    destruct (body_password (body req)) as [p|]; simpl;
      [|intros _; reflexivity].
    destruct (required (body_user_name (body req))); simpl;
      [|intros _; reflexivity].
    destruct (required (body_email (body req))); simpl;
      [|intros _; reflexivity].
    destruct (bcrypt_hash p (salt rnd)); simpl; [intros _; reflexivity|].
    destruct (find_user (objectId rnd) (users s)); simpl;
      [intros _; reflexivity | discriminate].
  - unfold userController.userPutCurrent.
    handler_cases; try (intros _; reflexivity).
    unfold userModel.findByIdAndUpdate. simpl.
    destruct (find_user (login_id l) (users s)) eqn:E; simpl; [discriminate|].
    intros _. rewrite (user_update_absent _ _ _ E). apply store_eta.
  - unfold userController.userDeleteCurrent.
    handler_cases; try (intros _; reflexivity); discriminate.
Qed.

(** A delete of a cat nobody stored is answered with 404 and changes
    nothing; a user update for a principal without a record likewise. *)
Lemma cat_writes_atomic_witness :
  fst (catController.catDelete (Sample.request [] {| id := "c9" |} tt tt)
         Sample.as_bob Sample.store)
  = Next (CustomError "No cat found" 404)
  /\ snd (catController.catDelete (Sample.request [] {| id := "c9" |} tt tt)
            Sample.as_bob Sample.store)
     = Sample.store.
Proof.
  split; [reflexivity|].
  exact (proj1 (proj2 cat_writes_atomic)
           (Sample.request [] {| id := "c9" |} tt tt) Sample.as_bob
           Sample.store _ eq_refl).
Defined.

Lemma user_writes_atomic_witness :
  fst (userController.userPutCurrent (Sample.request [] tt Sample.carol tt)
         Sample.as_ghost Sample.store)
  = Next (CustomError "No user found" 500)
  /\ snd (userController.userPutCurrent (Sample.request [] tt Sample.carol tt)
            Sample.as_ghost Sample.store)
     = Sample.store.
Proof.
  split; [reflexivity|].
  exact (proj1 (proj2 user_writes_atomic)
           (Sample.request [] tt Sample.carol tt) Sample.as_ghost
           Sample.store _ eq_refl).
Defined.

(** ** Statuses *)

Ltac forwarded :=
  simpl; intros H;
  first [ discriminate H
        | injection H as <-; do 2 eexists; split; [reflexivity|];
          simpl; tauto ].

(** X4: The cat controller forwards no status but 404 and 500: a validation
    failure, a missing file and a missing principal all reach [next] as
    500, and no handler ever forwards 400, 401 or 403. *)
Theorem cat_controller_statuses :
  (forall req res, forwards_only [404; 500]%Z (catController.catGetByUser req res))
  /\ (forall req res,
        forwards_only [404; 500]%Z (catController.catGetByBoundingBox req res))
  /\ (forall req res, forwards_only [404; 500]%Z (catController.catPutAdmin req res))
  /\ (forall req res,
        forwards_only [404; 500]%Z (catController.catDeleteAdmin req res))
  /\ (forall req res, forwards_only [404; 500]%Z (catController.catDelete req res))
  /\ (forall req res, forwards_only [404; 500]%Z (catController.catPut req res))
  /\ (forall req res, forwards_only [404; 500]%Z (catController.catGet req res))
  /\ (forall req res, forwards_only [404; 500]%Z (catController.catListGet req res))
  /\ (forall rnd req res,
        forwards_only [404; 500]%Z (catController.catPost rnd req res)).
Proof.
  repeat split; intros; intros s e.
  - unfold catController.catGetByUser. handler_cases; try forwarded.
    unfold catModel.find_owner. rewrite populate_owners_map. forwarded.
  - unfold catController.catGetByBoundingBox. handler_cases; try forwarded.
    unfold catModel.find_geoWithin. simpl.
    repeat match goal with
      | |- context [Js.parseFloat ?x] => destruct (Js.parseFloat x); simpl
      end; forwarded.
  - unfold catController.catPutAdmin. handler_cases; try forwarded.
    unfold catModel.findByIdAndUpdate. simpl.
    destruct (find_cat (id (params req)) (cats s)); forwarded.
  - unfold catController.catDeleteAdmin. handler_cases; try forwarded.
    unfold catModel.findByIdAndDelete. simpl.
    destruct (find_cat (id (params req)) (cats s)); forwarded.
  - unfold catController.catDelete. handler_cases; try forwarded.
    unfold catModel.findByIdAndDelete. simpl.
    destruct (find_cat (id (params req)) (cats s)); forwarded.
  - unfold catController.catPut. handler_cases; try forwarded.
    unfold catModel.findByIdAndUpdate. simpl.
    destruct (find_cat (id (params req)) (cats s)); forwarded.
  - unfold catController.catGet. handler_cases; try forwarded.
    unfold catModel.findById. simpl.
    destruct (find_cat (id (params req)) (cats s)); forwarded.
  - unfold catController.catListGet. handler_cases.
    unfold catModel.find. rewrite populate_owners_map. forwarded.
  - unfold catController.catPost. handler_cases; try forwarded.
    unfold catModel.create. simpl.
    destruct (required (body_cat_name (body req))); [|forwarded].
    destruct (body_weight (body req)); [|forwarded].
    destruct (file_filename f) as [|ch fn]; simpl; [forwarded|].
    destruct (body_birthdate (body req)); [|forwarded].
    destruct (coords res); [|forwarded].
    destruct (find_cat (objectId rnd) (cats s)); forwarded.
Qed.

(** A cat upload without a file reaches [next] with status 500, though the
    error was built with 400. *)
Lemma cat_controller_statuses_witness :
  fst (catController.catPost Sample.draw_cat
         (Sample.request [] tt Sample.kitty tt) Sample.bob_in_helsinki
         Sample.store)
  = Next (CustomError "file not found" 500)
  /\ exists m st,
       CustomError "file not found" 500 = CustomError m st
       /\ In st [404; 500]%Z.
Proof.
  split; [reflexivity|].
  exact (proj2 (proj2 (proj2 (proj2 (proj2 (proj2 (proj2 (proj2
           cat_controller_statuses)))))))
           Sample.draw_cat (Sample.request [] tt Sample.kitty tt)
           Sample.bob_in_helsinki Sample.store _ eq_refl).
Defined.



(** ** What the reads return *)

(** X6: [catGetByUser] answers with exactly the principal's cats, each with
    its owner populated; no cat of another owner is in the answer. *)
Theorem catGetByUser_own_cats req res s u :
  req_contexts req = [] ->
  user res = Some u ->
  exists found,
    catController.catGetByUser req res s
    = (Json (JArr (map (populated None s) found)), s)
    /\ (forall c, In c found <-> In c (cats s) /\ owner c = login_id u).
Proof.
  intros Hv Hu.
  exists (filter (fun c => String.eqb (owner c) (login_id u)) (cats s)).
  split.
  - unfold catController.catGetByUser, try_catch, validationResult, contexts,
      Request_Validated.
    rewrite Hv, Hu. simpl. unfold bind, catModel.find_owner. simpl.
    rewrite populate_owners_map. reflexivity.
  - intros c. rewrite filter_In, String.eqb_eq. reflexivity.
Qed.

Lemma catGetByUser_own_cats_witness :
  req_contexts (Sample.request [] tt Sample.no_change tt) = []
  /\ user Sample.as_bob = Some Sample.bob_login
  /\ exists found,
       catController.catGetByUser (Sample.request [] tt Sample.no_change tt)
         Sample.as_bob Sample.store
       = (Json (JArr (map (populated None Sample.store) found)), Sample.store)
       /\ (forall c, In c found
                     <-> In c (cats Sample.store)
                         /\ owner c = login_id Sample.bob_login).
Proof.
  split; [reflexivity|].
  split; [reflexivity|].
  exact (catGetByUser_own_cats (Sample.request [] tt Sample.no_change tt)
           Sample.as_bob Sample.store Sample.bob_login eq_refl eq_refl).
Defined.

(** X7: [catListGet] reads neither the validation result nor the principal: any
    caller gets every cat of the collection, in order, each with its owner's
    whole user document in the owner path; a cat whose owner is not stored
    is listed too, with [null] for owner. *)
Theorem catListGet_everything :
  forall req res s,
    exists listed,
      catController.catListGet req res s = (Json (JArr listed), s)
      /\ length listed = length (cats s)
      /\ (forall c, In c (cats s) -> In (populated None s c) listed)
      /\ (forall c, In c (cats s) ->
            find_user (owner c) (users s) = None ->
            In (cat_json_with JNull c) listed).
Proof.
  intros req res s. exists (map (populated None s) (cats s)).
  split; [|split; [|split]].
  - unfold catController.catListGet, try_catch, bind, catModel.find. simpl.
    rewrite populate_owners_map. reflexivity.
  - apply length_map.
  - intros c Hc. now apply in_map.
  - intros c Hc Ho.
    replace (cat_json_with JNull c) with (populated None s c).
    + now apply in_map.
    + unfold populated, owner_value. now rewrite Ho.
Qed.

(** X8: [catGet] populates the owner without a field selection: the answer for
    a stored cat whose owner is stored carries the owner's password hash
    and role. *)
Theorem catGet_shows_owner_password req res s c o :
  req_contexts req = [] ->
  find_cat (id (params req)) (cats s) = Some c ->
  find_user (owner c) (users s) = Some o ->
  exists j shown,
    catController.catGet req res s = (Json j, s)
    /\ field "_id" j = Some (JStr (id (params req)))
    /\ field "owner" j = Some shown
    /\ field "password" shown = Some (JStr (password o))
    /\ field "role" shown = Some (JStr (role o)).
Proof.
  intros Hv Hc Ho.
  unfold catController.catGet, try_catch, validationResult, contexts,
    Request_Validated.
  rewrite Hv. simpl. unfold bind, catModel.findById. simpl. rewrite Hc. simpl.
  rewrite Ho. do 2 eexists. split; [reflexivity|].
  simpl. rewrite (find_cat_id _ _ _ Hc). repeat split; reflexivity.
Qed.

Lemma catGet_shows_owner_password_witness :
  req_contexts (Sample.request [] {| id := "c1" |} tt tt) = []
  /\ find_cat "c1" (cats Sample.store) = Some Sample.tom
  /\ find_user (owner Sample.tom) (users Sample.store) = Some Sample.alice
  /\ exists j shown,
       catController.catGet (Sample.request [] {| id := "c1" |} tt tt)
         Sample.anonymous Sample.store = (Json j, Sample.store)
       /\ field "_id" j = Some (JStr "c1")
       /\ field "owner" j = Some shown
       /\ field "password" shown = Some (JStr (password Sample.alice))
       /\ field "role" shown = Some (JStr (role Sample.alice)).
Proof.
  split; [reflexivity|].
  split; [reflexivity|].
  split; [reflexivity|].
  exact (catGet_shows_owner_password (Sample.request [] {| id := "c1" |} tt tt)
           Sample.anonymous Sample.store Sample.tom Sample.alice
           eq_refl eq_refl eq_refl).
Defined.

(** X9: For a stored cat and a body of plain fields, [catPut] writes each
    field the body carries over the stored one and keeps the others and
    the identifier; it answers [Cat updated] with the cat as it is now
    stored, field by field, its owner path populated with exactly [_id],
    [user_name] and [email] of the owner it now has; no other cat and no
    user is touched. *)
Theorem catPut_owner_projection req res s c o :
  req_contexts req = [] ->
  find_cat (id (params req)) (cats s) = Some c ->
  find_user (or_else (body_owner (body req)) (owner c)) (users s) = Some o ->
  exists data after,
    fst (catController.catPut req res s) = Json (MessageResponse "Cat updated" data)
    /\ find_cat (id (params req)) (cats (snd (catController.catPut req res s)))
       = Some after
    /\ cat_id after = cat_id c
    /\ cat_name after = or_else (body_cat_name (body req)) (cat_name c)
    /\ weight after = or_else (body_weight (body req)) (weight c)
    /\ owner after = or_else (body_owner (body req)) (owner c)
    /\ filename after = or_else (body_filename (body req)) (filename c)
    /\ birthdate after = or_else (body_birthdate (body req)) (birthdate c)
    /\ location after = or_else (body_location (body req)) (location c)
    /\ field "_id" data = Some (JStr (cat_id after))
    /\ field "cat_name" data = Some (JStr (cat_name after))
    /\ field "weight" data = Some (JNum (weight after))
    /\ field "filename" data = Some (JStr (filename after))
    /\ field "birthdate" data = Some (JStr (birthdate after))
    /\ field "location" data = Some (point_json (location after))
    /\ field "owner" data
       = Some (JObj [("_id", JStr (_id o)); ("user_name", JStr (user_name o));
                     ("email", JStr (email o))])
    /\ (forall j, j <> id (params req) ->
          find_cat j (cats (snd (catController.catPut req res s)))
          = find_cat j (cats s))
    /\ users (snd (catController.catPut req res s)) = users s.
Proof.
  intros Hv Hc Ho.
  rewrite (catPut_run req res s Hv), Hc. cbn [fst snd users cats].
  exists (populated (Some "user_name email") s
            (catModel.apply_update (body req) c)),
         (catModel.apply_update (body req) c).
  split; [reflexivity|].
  split; [now rewrite find_cat_update_same, Hc|].
  repeat (split; [reflexivity|]).
  split.
  { unfold populated, owner_value. simpl. rewrite Ho. reflexivity. }
  split; [|reflexivity].
  intros j Hj. apply find_cat_update_other. congruence.
Qed.

(** Bob renames Alice's cat and makes himself its owner. *)
Lemma catPut_owner_projection_witness :
  req_contexts (Sample.request [] {| id := "c1" |} Sample.rename tt) = []
  /\ find_cat "c1" (cats Sample.store) = Some Sample.tom
  /\ find_user (or_else (body_owner Sample.rename) (owner Sample.tom))
       (users Sample.store) = Some Sample.bob
  /\ exists data after,
       fst (catController.catPut
              (Sample.request [] {| id := "c1" |} Sample.rename tt)
              Sample.as_bob Sample.store)
       = Json (MessageResponse "Cat updated" data)
       /\ find_cat "c1"
            (cats (snd (catController.catPut
                          (Sample.request [] {| id := "c1" |} Sample.rename tt)
                          Sample.as_bob Sample.store)))
          = Some after
       /\ cat_name after = "Mine"
       /\ owner after = "u2"
       /\ weight after = weight Sample.tom
       /\ field "cat_name" data = Some (JStr "Mine")
       /\ field "owner" data
          = Some (JObj [("_id", JStr "u2"); ("user_name", JStr "bob");
                        ("email", JStr "b@x.com")]).
Proof.
  split; [reflexivity|].
  split; [reflexivity|].
  split; [reflexivity|].
  destruct (catPut_owner_projection
              (Sample.request [] {| id := "c1" |} Sample.rename tt)
              Sample.as_bob Sample.store Sample.tom Sample.bob
              eq_refl eq_refl eq_refl)
    as (data & after & H1 & H2 & _ & H3 & H4 & H5 & _ & _ & _ & _ & H6
        & _ & _ & _ & _ & H7 & _).
  exists data, after.
  split; [exact H1|]. split; [exact H2|]. split; [exact H3|].
  split; [exact H5|]. split; [exact H4|].
  split; [rewrite H6, H3; reflexivity | exact H7].
Defined.

(** ** Create, then read *)

(** X10: A cat created by [catPost] is found by [catGet] under the identifier it
    was given, and [catGet] answers with the very document [catPost]
    answered with. *)
Theorem catPost_then_catGet rnd req res s f u l n w b greq gres :
  req_contexts req = [] ->
  file req = Some f -> file_filename f <> "" ->
  user res = Some u -> coords res = Some l ->
  body_cat_name (body req) = Some n -> n <> "" ->
  body_weight (body req) = Some w ->
  body_birthdate (body req) = Some b ->
  find_cat (objectId rnd) (cats s) = None ->
  req_contexts greq = [] ->
  id (params greq) = objectId rnd ->
  exists data,
    fst (catController.catPost rnd req res s)
    = Json (MessageResponse "Cat created" data)
    /\ catController.catGet greq gres (snd (catController.catPost rnd req res s))
       = (Json data, snd (catController.catPost rnd req res s)).
Proof.
  intros Hv Hf Hf' Hu Hl Hn Hn' Hw Hb Hid Hgv Hgid.
  unfold catController.catPost, try_catch, validationResult, contexts,
    Request_Validated.
  rewrite Hv, Hf, Hu, Hl. simpl. unfold bind, catModel.create. simpl.
  rewrite Hn, Hw, Hb.
  destruct n; [contradiction|].
  destruct (file_filename f) eqn:Ef; [contradiction|].
  simpl. rewrite Hid. simpl. eexists. split; [reflexivity|].
  unfold catController.catGet, try_catch, validationResult, contexts,
    Request_Validated.
  rewrite Hgv, Hgid. simpl. unfold bind, catModel.findById. simpl.
  erewrite find_cat_app_fresh; [reflexivity | exact Hid | reflexivity].
Qed.

Lemma catPost_then_catGet_witness :
  catController.catGet (Sample.request [] {| id := "c3" |} tt tt)
    Sample.anonymous Sample.store_with_kitty
  = (Json (cat_json_with (user_json Sample.bob) Sample.kitty_stored),
     Sample.store_with_kitty).
Proof.
  destruct (catPost_then_catGet Sample.draw_cat Sample.kitty_request
              Sample.bob_in_helsinki Sample.store Sample.upload
              Sample.bob_login Sample.helsinki "Kitty" 2 "2023-03-03"
              (Sample.request [] {| id := "c3" |} tt tt) Sample.anonymous
              eq_refl eq_refl ltac:(discriminate) eq_refl eq_refl eq_refl
              ltac:(discriminate) eq_refl eq_refl eq_refl eq_refl eq_refl)
    as [data [H1 H2]].
  injection H1 as <-. exact H2.
Defined.

(** X11: A user created by [userPost] is found by [userGet] under the identifier
    drawn for it: the answer carries that identifier, the name and the
    email of the body and the hash as password, and has no role field. *)
Theorem userPost_then_userGet bcrypt_hash rnd req res s n e p greq gres :
  body_user_name (body req) = Some n -> n <> "" ->
  body_email (body req) = Some e -> e <> "" ->
  body_password (body req) = Some p -> bcrypt_hash p (salt rnd) <> "" ->
  find_user (objectId rnd) (users s) = None ->
  id (params greq) = objectId rnd ->
  exists j,
    userController.userGet greq gres
      (snd (userController.userPost bcrypt_hash rnd req res s))
    = (Json j, snd (userController.userPost bcrypt_hash rnd req res s))
    /\ field "_id" j = Some (JStr (objectId rnd))
    /\ field "user_name" j = Some (JStr n)
    /\ field "email" j = Some (JStr e)
    /\ field "password" j = Some (JStr (bcrypt_hash p (salt rnd)))
    /\ field "role" j = None.
Proof.
  intros Hn Hn' He He' Hp Hp' Hid Hgid.
  rewrite (userPost_creates bcrypt_hash rnd req res s n e p) by assumption.
  cbn [snd].
  erewrite userGet_found.
  2:{ cbn [users]. rewrite Hgid.
      apply find_user_app_fresh; [exact Hid | reflexivity]. }
  eexists. split; [reflexivity|]. repeat split; reflexivity.
Qed.

Lemma userPost_then_userGet_witness :
  exists j,
    userController.userGet (Sample.request [] {| id := "u3" |} tt tt)
      Sample.anonymous Sample.store_with_carol
    = (Json j, Sample.store_with_carol)
    /\ field "_id" j = Some (JStr "u3")
    /\ field "user_name" j = Some (JStr "carol")
    /\ field "email" j = Some (JStr "not-an-email")
    /\ field "password" j
       = Some (JStr (Sample.toy_hash "pw" (salt Sample.draw)))
    /\ field "role" j = None.
Proof.
  exact (userPost_then_userGet Sample.toy_hash Sample.draw
           (Sample.request [] tt Sample.carol tt) Sample.anonymous Sample.store
           "carol" "not-an-email" "pw"
           (Sample.request [] {| id := "u3" |} tt tt) Sample.anonymous
           eq_refl ltac:(discriminate) eq_refl ltac:(discriminate) eq_refl
           ltac:(discriminate) eq_refl eq_refl).
Defined.

(** ** Updates and deletes *)

(** What [catDelete] does once the validation result is empty. *)
Lemma catDelete_run req res s :
  req_contexts req = [] ->
  catController.catDelete req res s
  = match find_cat (id (params req)) (cats s) with
    | Some c =>
        (Json (MessageResponse "Cat deleted" (populated None s c)),
         {| users := users s;
            cats := catModel.remove_first (id (params req)) (cats s) |})
    | None => (Next (CustomError "No cat found" 404), s)
    end.
Proof.
  intros Hv.
  unfold catController.catDelete, try_catch, validationResult, contexts,
    Request_Validated.
  rewrite Hv. simpl. unfold bind, catModel.findByIdAndDelete. simpl.
  destruct (find_cat (id (params req)) (cats s)) eqn:E; simpl; [reflexivity|].
  now rewrite (cat_remove_absent _ _ E), store_eta.
Qed.

(** X13: In a collection without duplicate identifiers, [catDelete] answers with
    the deleted cat; afterwards the identifier is free, the same delete is
    answered with 404, every other cat is found as before and the users are
    untouched. *)
Theorem catDelete_then_gone req res s c :
  NoDup (map cat_id (cats s)) ->
  req_contexts req = [] ->
  find_cat (id (params req)) (cats s) = Some c ->
  fst (catController.catDelete req res s)
  = Json (MessageResponse "Cat deleted" (populated None s c))
  /\ find_cat (id (params req)) (cats (snd (catController.catDelete req res s)))
     = None
  /\ catController.catDelete req res (snd (catController.catDelete req res s))
     = (Next (CustomError "No cat found" 404),
        snd (catController.catDelete req res s))
  /\ (forall j, j <> id (params req) ->
        find_cat j (cats (snd (catController.catDelete req res s)))
        = find_cat j (cats s))
  /\ users (snd (catController.catDelete req res s)) = users s.
Proof.
  intros Hu Hv Hc.
  assert (Hgone : find_cat (id (params req))
                    (catModel.remove_first (id (params req)) (cats s)) = None)
    by now apply find_cat_remove_same.
  rewrite (catDelete_run req res s Hv), Hc. cbn [fst snd users cats].
  split; [reflexivity|]. split; [exact Hgone|]. split.
  - rewrite (catDelete_run _ _ _ Hv). cbn [cats]. now rewrite Hgone.
  - split; [|reflexivity].
    intros j Hj. apply find_cat_remove_other. congruence.
Qed.

Lemma catDelete_then_gone_witness :
  catController.catDelete (Sample.request [] {| id := "c1" |} tt tt)
    Sample.as_bob
    (snd (catController.catDelete (Sample.request [] {| id := "c1" |} tt tt)
            Sample.as_bob Sample.store))
  = (Next (CustomError "No cat found" 404),
     snd (catController.catDelete (Sample.request [] {| id := "c1" |} tt tt)
            Sample.as_bob Sample.store)).
Proof.
  assert (Hu : NoDup (map cat_id (cats Sample.store))).
  { simpl. constructor.
    - intros [H|[]]. discriminate H.
    - constructor; [intros [] | constructor]. }
  exact (proj1 (proj2 (proj2
           (catDelete_then_gone (Sample.request [] {| id := "c1" |} tt tt)
              Sample.as_bob Sample.store Sample.tom Hu eq_refl eq_refl)))).
Defined.

(** X14: For a principal whose role is [admin], the admin delete is the owner
    delete, and the admin update of a stored cat is the owner update: the
    owner routes already do all an admin can do. *)
Theorem admin_routes_as_owner_routes req res s u :
  user res = Some u ->
  login_role u = "admin" ->
  catController.catDeleteAdmin req res s
  = catController.catDelete
      {| req_contexts := req_contexts req; params := params req; body := tt;
         query := tt; file := file req |} res s
  /\ (find_cat (id (params req)) (cats s) <> None ->
      catController.catPutAdmin req res s = catController.catPut req res s).
Proof.
  intros Hu Hr.
  unfold catController.catDeleteAdmin, catController.catDelete,
    catController.catPutAdmin, catController.catPut, try_catch,
    validationResult, contexts, Request_Validated.
  rewrite Hu. simpl.
  destruct (req_contexts req); simpl; [|split; reflexivity].
  unfold bind. simpl. rewrite Hr. simpl.
  split; [reflexivity|].
  unfold catModel.findByIdAndUpdate.
  destruct (find_cat (id (params req)) (cats s)); [reflexivity|].
  intros H. now contradiction H.
Qed.

Lemma admin_routes_as_owner_routes_witness :
  catController.catDeleteAdmin
    (Sample.request [] {| id := "c1" |} Sample.no_change tt) Sample.as_root
    Sample.store
  = catController.catDelete (Sample.request [] {| id := "c1" |} tt tt)
      Sample.as_root Sample.store.
Proof.
  exact (proj1 (admin_routes_as_owner_routes
                  (Sample.request [] {| id := "c1" |} Sample.no_change tt)
                  Sample.as_root Sample.store Sample.root_login
                  eq_refl eq_refl)).
Defined.

(** ** The current user *)

(** X15: For a body of plain fields, [userPutCurrent] writes each field the
    body carries into the principal's own record, the role and the
    password (as sent) included, and keeps the others and the identifier;
    it answers [User updated] with the identifier, the name and the email
    now stored, without password and role; no other user and no cat is
    touched. *)
Theorem userPutCurrent_overwrites req res s u stored :
  req_contexts req = [] ->
  user res = Some u ->
  find_user (login_id u) (users s) = Some stored ->
  exists after data,
    find_user (login_id u)
      (users (snd (userController.userPutCurrent req res s))) = Some after
    /\ _id after = _id stored
    /\ user_name after = or_else (body_user_name (body req)) (user_name stored)
    /\ email after = or_else (body_email (body req)) (email stored)
    /\ role after = or_else (body_role (body req)) (role stored)
    /\ password after = or_else (body_password (body req)) (password stored)
    /\ fst (userController.userPutCurrent req res s)
       = Json (MessageResponse "User updated" data)
    /\ field "_id" data = Some (JStr (_id after))
    /\ field "user_name" data = Some (JStr (user_name after))
    /\ field "email" data = Some (JStr (email after))
    /\ field "password" data = None
    /\ field "role" data = None
    /\ (forall j, j <> login_id u ->
          find_user j (users (snd (userController.userPutCurrent req res s)))
          = find_user j (users s))
    /\ cats (snd (userController.userPutCurrent req res s)) = cats s.
Proof.
  intros Hv Hu Hs.
  rewrite (userPutCurrent_run req res s u Hv Hu), Hs. cbn [fst snd users cats].
  exists (userModel.apply_update (body req) stored).
  eexists.
  split; [now rewrite find_user_update_same, Hs|].
  do 5 (split; [reflexivity|]).
  split; [reflexivity|].
  do 5 (split; [reflexivity|]).
  split; [|reflexivity].
  intros j Hj. apply find_user_update_other. congruence.
Qed.

(** Bob sends the role [admin] for himself, and is stored as an admin
    under his old name. *)
Lemma userPutCurrent_overwrites_witness :
  body_role Sample.promote = Some "admin"
  /\ exists after,
       find_user "u2"
         (users (snd (userController.userPutCurrent
                        (Sample.request [] tt Sample.promote tt)
                        Sample.as_bob Sample.store))) = Some after
       /\ role after = "admin"
       /\ user_name after = "bob".
Proof.
  split; [reflexivity|].
  destruct (userPutCurrent_overwrites
              (Sample.request [] tt Sample.promote tt) Sample.as_bob
              Sample.store Sample.bob_login Sample.bob eq_refl eq_refl eq_refl)
    as (after & data & H1 & _ & H2 & _ & H3 & _).
  exists after. split; [exact H1|]. split; [exact H3 | exact H2].
Defined.

(** X16: [userDeleteCurrent] deletes no cat: the cats of the deleted user stay in
    the store, and [catGet] then shows such a cat with [null] for owner. *)
Theorem userDeleteCurrent_orphans_cats req res s u greq gres c :
  NoDup (map _id (users s)) ->
  validationResult (body req) = [] ->
  user res = Some u ->
  req_contexts greq = [] ->
  find_cat (id (params greq)) (cats s) = Some c ->
  owner c = login_id u ->
  cats (snd (userController.userDeleteCurrent req res s)) = cats s
  /\ find_user (login_id u)
       (users (snd (userController.userDeleteCurrent req res s))) = None
  /\ fst (catController.catGet greq gres
            (snd (userController.userDeleteCurrent req res s)))
     = Json (cat_json_with JNull c).
Proof.
  intros Hn Hv Hu Hgv Hc Ho.
  assert (E : snd (userController.userDeleteCurrent req res s)
              = {| users := userModel.remove_first (login_id u) (users s);
                   cats := cats s |}).
  { unfold userController.userDeleteCurrent, try_catch.
    rewrite Hv, Hu. reflexivity. }
  rewrite E. cbn [users cats].
  split; [reflexivity|].
  split; [now apply find_user_remove_same|].
  unfold catController.catGet, try_catch, validationResult, contexts,
    Request_Validated.
  rewrite Hgv. simpl. unfold bind, catModel.findById. simpl. rewrite Hc. simpl.
  rewrite Ho, (find_user_remove_same _ _ Hn). reflexivity.
Qed.

Lemma userDeleteCurrent_orphans_cats_witness :
  owner Sample.felix = login_id Sample.bob_login
  /\ fst (catController.catGet (Sample.request [] {| id := "c2" |} tt tt)
            Sample.anonymous
            (snd (userController.userDeleteCurrent
                    (Sample.request [] tt Sample.empty_body tt)
                    Sample.as_bob Sample.store)))
     = Json (cat_json_with JNull Sample.felix).
Proof.
  split; [reflexivity|].
  assert (Hn : NoDup (map _id (users Sample.store))).
  { simpl. constructor.
    - intros [H|[]]. discriminate H.
    - constructor; [intros [] | constructor]. }
  exact (proj2 (proj2
           (userDeleteCurrent_orphans_cats
              (Sample.request [] tt Sample.empty_body tt) Sample.as_bob
              Sample.store Sample.bob_login
              (Sample.request [] {| id := "c2" |} tt tt) Sample.anonymous
              Sample.felix Hn eq_refl eq_refl eq_refl eq_refl eq_refl))).
Defined.




(** ** Identifiers stay unique *)

Lemma cat_ids_update i b l : map cat_id (catModel.update_first i b l) = map cat_id l.
Proof.
  induction l as [|c l IH]; simpl; [reflexivity|].
  destruct (String.eqb (cat_id c) i); simpl; [reflexivity | now rewrite IH].
Qed.

Lemma user_ids_update i b l : map _id (userModel.update_first i b l) = map _id l.
Proof.
  induction l as [|u l IH]; simpl; [reflexivity|].
  destruct (String.eqb (_id u) i); simpl; [reflexivity | now rewrite IH].
Qed.

Lemma cat_ids_remove i l j :
  In j (map cat_id (catModel.remove_first i l)) -> In j (map cat_id l).
Proof.
  induction l as [|c l IH]; simpl; [trivial|].
  destruct (String.eqb (cat_id c) i); simpl; [now right|].
  intros [H|H]; [now left | right; now apply IH].
Qed.

Lemma user_ids_remove i l j :
  In j (map _id (userModel.remove_first i l)) -> In j (map _id l).
Proof.
  induction l as [|u l IH]; simpl; [trivial|].
  destruct (String.eqb (_id u) i); simpl; [now right|].
  intros [H|H]; [now left | right; now apply IH].
Qed.

Lemma cat_unique_remove i l :
  NoDup (map cat_id l) -> NoDup (map cat_id (catModel.remove_first i l)).
Proof.
  induction l as [|c l IH]; simpl; [trivial|].
  intros H. inversion H as [|x xs Hx Hxs]; subst.
  destruct (String.eqb (cat_id c) i); simpl; [exact Hxs|].
  constructor; [|now apply IH].
  intros Hin. apply Hx. now apply cat_ids_remove in Hin.
Qed.

Lemma user_unique_remove i l :
  NoDup (map _id l) -> NoDup (map _id (userModel.remove_first i l)).
Proof.
  induction l as [|u l IH]; simpl; [trivial|].
  intros H. inversion H as [|x xs Hx Hxs]; subst.
  destruct (String.eqb (_id u) i); simpl; [exact Hxs|].
  constructor; [|now apply IH].
  intros Hin. apply Hx. now apply user_ids_remove in Hin.
Qed.

Lemma cat_unique_app l c :
  NoDup (map cat_id l) -> find_cat (cat_id c) l = None ->
  NoDup (map cat_id (l ++ [c])).
Proof.
  intros Hl Hc. rewrite map_app. simpl.
  apply NoDup_rev in Hl.
  rewrite <- (rev_involutive (map cat_id l ++ [cat_id c])).
  apply NoDup_rev. rewrite rev_app_distr. simpl.
  constructor; [|exact Hl].
  rewrite <- in_rev. now apply find_cat_none_iff.
Qed.

Lemma user_unique_app l u :
  NoDup (map _id l) -> find_user (_id u) l = None ->
  NoDup (map _id (l ++ [u])).
Proof.
  intros Hl Hu. rewrite map_app. simpl.
  apply NoDup_rev in Hl.
  rewrite <- (rev_involutive (map _id l ++ [_id u])).
  apply NoDup_rev. rewrite rev_app_distr. simpl.
  constructor; [|exact Hl].
  rewrite <- in_rev. now apply find_user_none_iff.
Qed.

(** A handler under which a property of the store survives. *)
Ltac kept := simpl; intros H; exact H.

(** X18: No handler of either controller ever gives two documents of a
    collection the same identifier: uniqueness of the identifiers, once
    true of the store, is true after every request. *)
Theorem writes_keep_ids_unique :
  forall s, unique_ids s ->
    (forall req res, unique_ids (snd (catController.catPut req res s)))
    /\ (forall req res, unique_ids (snd (catController.catDelete req res s)))
    /\ (forall req res, unique_ids (snd (catController.catPutAdmin req res s)))
    /\ (forall req res, unique_ids (snd (catController.catDeleteAdmin req res s)))
    /\ (forall rnd req res, unique_ids (snd (catController.catPost rnd req res s)))
    /\ (forall bcrypt_hash rnd req res,
          unique_ids (snd (userController.userPost bcrypt_hash rnd req res s)))
    /\ (forall req res, unique_ids (snd (userController.userPutCurrent req res s)))
    /\ (forall req res,
          unique_ids (snd (userController.userDeleteCurrent req res s))).
Proof.
  intros s [Hu Hc].
  assert (Hs : unique_ids s) by (split; assumption).
  repeat match goal with |- _ /\ _ => split end; intros; revert Hs.
  - unfold catController.catPut. handler_cases; try kept.
    unfold catModel.findByIdAndUpdate. simpl.
    destruct (find_cat (id (params req)) (cats s)); simpl; intros _;
      (split; simpl; [exact Hu | now rewrite cat_ids_update]).
  - unfold catController.catDelete. handler_cases; try kept.
    unfold catModel.findByIdAndDelete. simpl.
    destruct (find_cat (id (params req)) (cats s)); simpl; intros _;
      (split; simpl; [exact Hu | now apply cat_unique_remove]).
  - unfold catController.catPutAdmin. handler_cases; try kept.
    unfold catModel.findByIdAndUpdate. simpl.
    destruct (find_cat (id (params req)) (cats s)); simpl; intros _;
      (split; simpl; [exact Hu | now rewrite cat_ids_update]).
  - unfold catController.catDeleteAdmin. handler_cases; try kept.
    unfold catModel.findByIdAndDelete. simpl.
    destruct (find_cat (id (params req)) (cats s)); simpl; intros _;
      (split; simpl; [exact Hu | now apply cat_unique_remove]).
  - unfold catController.catPost. handler_cases; try kept.
    unfold catModel.create. simpl.
    destruct (required (body_cat_name (body req))); [|kept].
    destruct (body_weight (body req)); [|kept].
    destruct (file_filename f) as [|ch fn]; simpl; [kept|].
    destruct (body_birthdate (body req)); [|kept].
    destruct (coords res); [|kept].
    destruct (find_cat (objectId rnd) (cats s)) eqn:E; simpl; [kept|].
    intros _. split; simpl; [exact Hu|].
    now apply cat_unique_app.
  - unfold userController.userPost, try_catch, bind, userController.hash,
      userModel.create.
    destruct (body_password (body req)) as [p|]; simpl; [|kept].
    destruct (required (body_user_name (body req))); simpl; [|kept].
    destruct (required (body_email (body req))); simpl; [|kept].
    destruct (bcrypt_hash p (salt rnd)); simpl; [kept|].
    destruct (find_user (objectId rnd) (users s)) eqn:E; simpl; [kept|].
    intros _. split; simpl; [|exact Hc].
    now apply user_unique_app.
  - unfold userController.userPutCurrent. handler_cases; try kept.
    unfold userModel.findByIdAndUpdate. simpl.
    destruct (find_user (login_id l) (users s)); simpl; intros _;
      (split; simpl; [now rewrite user_ids_update | exact Hc]).
  - unfold userController.userDeleteCurrent. handler_cases; try kept.
    unfold userModel.findByIdAndDelete. simpl. intros _.
    split; simpl; [now apply user_unique_remove | exact Hc].
Qed.

Lemma writes_keep_ids_unique_witness :
  unique_ids Sample.store
  /\ unique_ids
       (snd (catController.catPost Sample.draw_cat Sample.kitty_request
               Sample.bob_in_helsinki Sample.store)).
Proof.
  assert (H : unique_ids Sample.store).
  { split; simpl.
    - constructor; [intros [H|[]]; discriminate H|].
      constructor; [intros [] | constructor].
    - constructor; [intros [H|[]]; discriminate H|].
      constructor; [intros [] | constructor]. }
  split; [exact H|].
  exact (proj1 (proj2 (proj2 (proj2 (proj2
           (writes_keep_ids_unique Sample.store H)))))
           Sample.draw_cat Sample.kitty_request Sample.bob_in_helsinki).
Defined.
